(** * Smart-Event: notification fan-out, audience resolution and registration

    A shallow embedding of the Cloud Functions of [functions/src/index.ts]
    (event triggers, the reminder sweep, the user administration callables and
    the audience helper) and of the registration and feedback operations of
    [src/lib/firestore.ts], with the properties of the specification stated
    and settled against them.

    Documents are records, collections are finite maps from document ids to
    documents, and every handler is a computation in a small state-and-error
    monad over the store, the console and the faults the platform may raise. *)

From Stdlib Require Import ZArith.
From stdpp Require Import gmap strings list fin_maps pretty.

Local Open Scope string_scope.
Local Open Scope Z_scope.
Local Open Scope list_scope.

(** ** JavaScript values the code inspects *)

Module Js.

(** Truthiness of an optional string field: [undefined], [null] and the
    empty string are falsy, every other string is truthy. *)
Definition truthy (v : option string) : bool :=
  match v with
  | Some s => negb (String.eqb s EmptyString)
  | None => false
  end.

(** [a !== b] on primitive strings compares the characters. *)
Definition strict_neq_string (a b : string) : bool := negb (String.eqb a b).

(** A field that may be missing from an object, be [null], or hold a value. *)
Inductive Field (A : Type) : Type :=
| Absent
| Null
| Val (a : A).
Arguments Absent {A}.
Arguments Null {A}.
Arguments Val {A} a.

Definition is_absent {A} (f : Field A) : bool :=
  match f with Absent => true | _ => false end.

(** Error codes of [functions.https.HttpsError] used by the callables. *)
Inductive HttpsCode := unauthenticated | permission_denied | invalid_argument | internal.

(** [ErrorCode] of the client library. *)
Inductive ErrorCode :=
| UNAUTHORIZED | FORBIDDEN | NOT_FOUND | ALREADY_EXISTS | INVALID_INPUT | INTERNAL_ERROR.

(** Values that can be thrown: the two error classes of the repository and
    any other error raised by the platform, each with its [message]. *)
Inductive Error :=
| HttpsError (code : HttpsCode) (message : string)
| AppError (code : ErrorCode) (message : string) (statusCode : Z)
| PlatformError (message : string).

Definition message_of (e : Error) : string :=
  match e with
  | HttpsError _ m => m
  | AppError _ m _ => m
  | PlatformError m => m
  end.

(** [error instanceof AppError] *)
Definition instanceof_AppError (e : Error) : bool :=
  match e with AppError _ _ _ => true | _ => false end.

(** The one-character string holding a double quote. *)
Definition dquote : string := String (Ascii.ascii_of_nat 34) EmptyString.

(** [s || d] on strings. *)
Definition or_default (s d : string) : string :=
  if String.eqb s EmptyString then d else s.

End Js.

Export Js.

(** ** Documents *)

Inductive UserRole := ADMIN | LECTURER | STUDENT.

Inductive AudienceType := GENERAL | DEPARTMENT | CLASS.

#[global] Instance UserRole_eq_dec : EqDecision UserRole.
Proof. solve_decision. Defined.

#[global] Instance AudienceType_eq_dec : EqDecision AudienceType.
Proof. solve_decision. Defined.

(** [{ type, value? }] *)
Record TargetAudience := {
  ta_type : AudienceType;
  ta_value : option string
}.

(** A Firestore timestamp: seconds since the epoch and a nanosecond part. *)
Record Timestamp := {
  seconds : Z;
  nanoseconds : Z
}.

#[global] Instance Timestamp_eq_dec : EqDecision Timestamp.
Proof. solve_decision. Defined.

(** Firestore orders timestamps by seconds, then by nanoseconds. *)
Definition ts_leb (a b : Timestamp) : bool :=
  (seconds a <? seconds b) || ((seconds a =? seconds b) && (nanoseconds a <=? nanoseconds b)).

(** The instant of a timestamp in nanoseconds, and the timestamps whose
    nanosecond part is in range. *)
Definition ts_nanos (t : Timestamp) : Z := seconds t * 1000000000 + nanoseconds t.

Definition ts_valid (t : Timestamp) : Prop := 0 <= nanoseconds t < 1000000000.

(** The instants, in milliseconds, the [Timestamp] class accepts (years 1
    to 9999); [Timestamp_fromMillis] below is its conversion of such an
    instant. *)
Definition timestamp_range (ms : Z) : Prop :=
  -62135596800000 <= ms < 253402300800000.

(** [Timestamp.fromMillis], which [Timestamp.now] and [Timestamp.fromDate]
    go through. *)
Definition Timestamp_fromMillis (ms : Z) : Timestamp :=
  {| seconds := ms / 1000; nanoseconds := (ms - (ms / 1000) * 1000) * 1000000 |}.

Record Registration := {
  studentId : string;
  studentName : string;
  studentEmail : string;
  registeredAt : Timestamp
}.

Record Feedback := {
  fb_studentId : string;
  fb_studentName : string;
  rating : Z;
  comment : string;
  submittedAt : Timestamp
}.

#[global] Instance Registration_eq_dec : EqDecision Registration.
Proof. solve_decision. Defined.

#[global] Instance Feedback_eq_dec : EqDecision Feedback.
Proof. solve_decision. Defined.

(** The fields of an event document.  [D] is the representation of a
    timestamp field: [Timestamp] in the store, a [Timestamp] object with an
    identity once a snapshot has been decoded by [data()].  The two array
    fields may be missing from a document. *)
Record Event (D : Type) := {
  title : string;
  description : string;
  date : D;
  location : string;
  creatorId : string;
  creatorName : string;
  institution : string;
  targetAudience : TargetAudience;
  registrations : option (list Registration);
  feedback : option (list Feedback);
  createdAt : D;
  updatedAt : D
}.
Arguments title {D} _.
Arguments description {D} _.
Arguments date {D} _.
Arguments location {D} _.
Arguments creatorId {D} _.
Arguments creatorName {D} _.
Arguments institution {D} _.
Arguments targetAudience {D} _.
Arguments registrations {D} _.
Arguments feedback {D} _.
Arguments createdAt {D} _.
Arguments updatedAt {D} _.

Abbreviation EventDoc := (Event Timestamp).

(** The data of a document of the [users] collection.  The [uid] field is
    written by [createUser] and left out by the seeding script. *)
Record UserDoc := {
  user_uid : option string;
  user_email : string;
  user_role : UserRole;
  user_institution : string;
  user_department : option string;
  user_class : option string
}.

Inductive NotificationType :=
| event_created | event_updated | event_cancelled | registration_confirmed | event_reminder.

(** [FieldValue.serverTimestamp()]: a sentinel the server replaces on commit. *)
Inductive FieldValue := serverTimestamp.

(** The object handed to [batch.set] for one notification. *)
Record NotificationDoc := {
  userId : string;
  type_ : NotificationType;
  message : string;
  eventId : Field string;
  link : Field string;
  isRead : bool;
  n_createdAt : FieldValue
}.

(** [arr || []] *)
Definition or_empty {A} (arr : option (list A)) : list A :=
  match arr with Some l => l | None => [] end.

(** ** Computations that read and write a state and may throw *)

Inductive Outcome (A : Type) : Type :=
| Returned (a : A)
| Thrown (e : Error).
Arguments Returned {A} a.
Arguments Thrown {A} e.

Definition Eff (S A : Type) : Type := S -> Outcome A * S.

Section Eff.
Context {S : Type}.

Definition ret {A} (a : A) : Eff S A := fun w => (Returned a, w).

Definition throw {A} (e : Error) : Eff S A := fun w => (Thrown e, w).

Definition bind {A B} (m : Eff S A) (k : A -> Eff S B) : Eff S B :=
  fun w =>
    match m w with
    | (Returned a, w') => k a w'
    | (Thrown e, w') => (Thrown e, w')
    end.

(** [try { body } catch (error) { handler }] *)
Definition try_catch {A} (body : Eff S A) (handler : Error -> Eff S A) : Eff S A :=
  fun w =>
    match body w with
    | (Returned a, w') => (Returned a, w')
    | (Thrown e, w') => handler e w'
    end.

End Eff.

Notation "'let*' x ':=' m 'in' k" := (bind m (fun x => k))
  (at level 10, x pattern, m at level 100, k at level 200).

(** [for (const x of l) { ... }] over the loop-carried variables [s]. *)
Fixpoint for_of {S A St} (l : list A) (s : St) (body : St -> A -> Eff S St) : Eff S St :=
  match l with
  | [] => ret s
  | x :: l' => let* s' := body s x in for_of l' s' body
  end.

Inductive LogEntry :=
| Log (text : string)
| LogError (text : string) (error : Error).

(** ** The Cloud Functions runtime: store, console, faults *)

Module Functions.

(** What the platform may refuse.  A fault is the error the call rejects
    with; [None] lets the call through. *)
Record Faults := {
  get_fault : option Error;
  set_fault : NotificationDoc -> option Error;
  commit_fault : list NotificationDoc -> option Error;
  auth_fault : string -> option Error;
  delete_fault : option Error
}.

Definition no_faults : Faults :=
  {| get_fault := None;
     set_fault := fun _ => None;
     commit_fault := fun _ => None;
     auth_fault := fun _ => None;
     delete_fault := None |}.

(** The state a function invocation runs against.  [notifications] holds the
    records durably written, [commits] every batch handed to
    [batch.commit()], in order, whether it was accepted or not, and
    [next_object] the identity the next allocated object receives. *)
Record World := {
  users : gmap string UserDoc;
  events : gmap string EventDoc;
  accounts : gset string;
  notifications : list NotificationDoc;
  commits : list (list NotificationDoc);
  console : list LogEntry;
  next_object : nat;
  faults : Faults
}.

Abbreviation M := (Eff World).

Definition console_log (text : string) : M unit :=
  fun w =>
    (Returned tt,
     {| users := users w; events := events w; accounts := accounts w;
        notifications := notifications w; commits := commits w;
        console := console w ++ [Log text];
        next_object := next_object w; faults := faults w |}).

Definition console_error (text : string) (error : Error) : M unit :=
  fun w =>
    (Returned tt,
     {| users := users w; events := events w; accounts := accounts w;
        notifications := notifications w; commits := commits w;
        console := console w ++ [LogError text error];
        next_object := next_object w; faults := faults w |}).

(** *** Snapshots *)

(** A decoded [Timestamp]: a JavaScript object, so it has an identity next to
    its contents, and [!==] between two of them compares the identities. *)
Record TimestampObj := {
  obj_id : nat;
  obj_value : Timestamp
}.

Definition strict_neq_object (a b : TimestampObj) : bool :=
  negb (Nat.eqb (obj_id a) (obj_id b)).

Abbreviation EventData := (Event TimestampObj).

(** The object [data()] builds from the stored fields: every timestamp
    field becomes a newly allocated [Timestamp] instance, the first of them
    with identity [n]. *)
Definition decode (n : nat) (snap : EventDoc) : EventData :=
  {| title := title snap; description := description snap;
     date := {| obj_id := n; obj_value := date snap |};
     location := location snap; creatorId := creatorId snap;
     creatorName := creatorName snap; institution := institution snap;
     targetAudience := targetAudience snap;
     registrations := registrations snap; feedback := feedback snap;
     createdAt := {| obj_id := S n; obj_value := createdAt snap |};
     updatedAt := {| obj_id := S (S n); obj_value := updatedAt snap |} |}.

(** [snap.data()] *)
Definition snapshot_data (snap : EventDoc) : M EventData :=
  fun w =>
    (Returned (decode (next_object w) snap),
     {| users := users w; events := events w; accounts := accounts w;
        notifications := notifications w; commits := commits w;
        console := console w;
        next_object := S (S (S (next_object w))); faults := faults w |}).

(** *** Queries *)

(** A query is the conjunction of the [where] clauses chained so far. *)
Definition Query (Doc : Type) : Type := Doc -> bool.

Definition collection {Doc} : Query Doc := fun _ => true.

Definition where_institution (q : Query UserDoc) (v : string) : Query UserDoc :=
  fun d => q d && bool_decide (user_institution d = v).

Definition where_role (q : Query UserDoc) (v : UserRole) : Query UserDoc :=
  fun d => q d && bool_decide (user_role d = v).

Definition where_department (q : Query UserDoc) (v : string) : Query UserDoc :=
  fun d => q d && bool_decide (user_department d = Some v).

Definition where_class (q : Query UserDoc) (v : string) : Query UserDoc :=
  fun d => q d && bool_decide (user_class d = Some v).

Definition where_date_ge (q : Query EventDoc) (v : Timestamp) : Query EventDoc :=
  fun d => q d && ts_leb v (date d).

Definition where_date_le (q : Query EventDoc) (v : Timestamp) : Query EventDoc :=
  fun d => q d && ts_leb (date d) v.

Definition run_query {Doc} (q : Query Doc) (c : gmap string Doc) : list (string * Doc) :=
  filter (fun doc => q doc.2 = true) (map_to_list c).

(** [query.get()] on the [users] collection: the matching documents, each
    with its id. *)
Definition get_users (q : Query UserDoc) : M (list (string * UserDoc)) :=
  fun w =>
    match get_fault (faults w) with
    | Some e => (Thrown e, w)
    | None => (Returned (run_query q (users w)), w)
    end.

Definition get_events (q : Query EventDoc) : M (list (string * EventDoc)) :=
  fun w =>
    match get_fault (faults w) with
    | Some e => (Thrown e, w)
    | None => (Returned (run_query q (events w)), w)
    end.

(** [db.collection('users').doc(id).get()] followed by [.data()]. *)
Definition get_user (id : string) : M (option UserDoc) :=
  fun w =>
    match get_fault (faults w) with
    | Some e => (Thrown e, w)
    | None => (Returned (users w !! id), w)
    end.

(** *** Write batches *)

(** [db.batch()]: a local object collecting the operations added to it. *)
Definition db_batch : list NotificationDoc := [].

(** [batch.set(notificationsRef.doc(), data)] *)
Definition batch_set (batch : list NotificationDoc) (data : NotificationDoc)
  : M (list NotificationDoc) :=
  fun w =>
    match set_fault (faults w) data with
    | Some e => (Thrown e, w)
    | None => (Returned (batch ++ [data]), w)
    end.

(** [batch.commit()]: all the operations of the batch are written, or none. *)
Definition batch_commit (batch : list NotificationDoc) : M unit :=
  fun w =>
    let submitted := commits w ++ [batch] in
    match commit_fault (faults w) batch with
    | Some e =>
        (Thrown e,
         {| users := users w; events := events w; accounts := accounts w;
            notifications := notifications w; commits := submitted;
            console := console w;
            next_object := next_object w; faults := faults w |})
    | None =>
        (Returned tt,
         {| users := users w; events := events w; accounts := accounts w;
            notifications := notifications w ++ batch; commits := submitted;
            console := console w;
            next_object := next_object w; faults := faults w |})
    end.

(** ** functions/src/index.ts *)

(** The element [{ uid: doc.id, ...doc.data() }] built for each document of
    the audience snapshot: a [uid] field of the data overrides the id. *)
Record AudienceUser := {
  uid : string;
  user_data : UserDoc
}.

Definition audience_user (doc : string * UserDoc) : AudienceUser :=
  {| uid := default doc.1 (user_uid doc.2); user_data := doc.2 |}.

(** [targetAudience.value], read where the code has found it truthy. *)
Definition value_of (ta : TargetAudience) : string := default EmptyString (ta_value ta).

(** The query [getTargetAudience] builds before running it. *)
Definition audience_query (institution : string) (targetAudience : TargetAudience)
  : Query UserDoc :=
  let query := where_institution collection institution in
  let query := where_role query STUDENT in
  if bool_decide (ta_type targetAudience = DEPARTMENT) && truthy (ta_value targetAudience)
  then where_department query (value_of targetAudience)
  else if bool_decide (ta_type targetAudience = CLASS) && truthy (ta_value targetAudience)
  then where_class query (value_of targetAudience)
  else query.

Definition getTargetAudience (institution : string) (targetAudience : TargetAudience)
  : M (list AudienceUser) :=
  let* snapshot := get_users (audience_query institution targetAudience) in
  ret (map audience_user snapshot).

Definition created_notification {D} (event : Event D) (eventId : string) (user : AudienceUser)
  : NotificationDoc :=
  {| userId := uid user;
     type_ := event_created;
     message := "New event: " +:+ title event;
     eventId := Val eventId;
     link := Val ("/events/" +:+ eventId);
     isRead := false;
     n_createdAt := serverTimestamp |}.

Definition onEventCreated (snap : EventDoc) (eventId : string) : M unit :=
  let* event := snapshot_data snap in
  try_catch
    (let* _ := console_log ("Event created: " +:+ title event +:+ " (" +:+ eventId +:+ ")") in
     let* usersToNotify := getTargetAudience (institution event) (targetAudience event) in
     let batch := db_batch in
     let* batch :=
       for_of usersToNotify batch (fun batch user =>
         if String.eqb (uid user) (creatorId event) then ret batch
         else batch_set batch (created_notification event eventId user)) in
     let* _ := batch_commit batch in
     console_log ("Created " +:+ pretty (length usersToNotify) +:+ " notifications"))
    (fun error => console_error "Error in onEventCreated:" error).

Definition updated_notification {D} (after : Event D) (eventId : string)
  (registration : Registration) : NotificationDoc :=
  {| userId := studentId registration;
     type_ := event_updated;
     message := "Event " +:+ dquote +:+ title after +:+ dquote +:+ " has been updated";
     eventId := Val eventId;
     link := Val ("/events/" +:+ eventId);
     isRead := false;
     n_createdAt := serverTimestamp |}.

(** The test of [onEventUpdated] on the two decoded snapshots. *)
Definition criticalFieldsChanged (before after : EventData) : bool :=
  strict_neq_string (title before) (title after)
  || strict_neq_object (date before) (date after)
  || strict_neq_string (location before) (location after).

Definition onEventUpdated (change_before change_after : EventDoc) (eventId : string)
  : M unit :=
  let* before := snapshot_data change_before in
  let* after := snapshot_data change_after in
  try_catch
    (if negb (criticalFieldsChanged before after) then ret tt
     else
       let* _ := console_log ("Event updated: " +:+ title after +:+ " (" +:+ eventId +:+ ")") in
       let registrations := or_empty (registrations after) in
       if (length registrations =? 0)%nat then ret tt
       else
         let batch := db_batch in
         let* batch :=
           for_of registrations batch (fun batch registration =>
             batch_set batch (updated_notification after eventId registration)) in
         let* _ := batch_commit batch in
         console_log ("Notified " +:+ pretty (length registrations) +:+ " registered students"))
    (fun error => console_error "Error in onEventUpdated:" error).

Definition cancelled_notification {D} (event : Event D) (registration : Registration)
  : NotificationDoc :=
  {| userId := studentId registration;
     type_ := event_cancelled;
     message := "Event " +:+ dquote +:+ title event +:+ dquote +:+ " has been cancelled";
     eventId := Null;
     link := Null;
     isRead := false;
     n_createdAt := serverTimestamp |}.

Definition onEventDeleted (snap : EventDoc) (eventId : string) : M unit :=
  let* event := snapshot_data snap in
  try_catch
    (let* _ := console_log ("Event deleted: " +:+ title event +:+ " (" +:+ eventId +:+ ")") in
     let registrations := or_empty (registrations event) in
     if (length registrations =? 0)%nat then ret tt
     else
       let batch := db_batch in
       let* batch :=
         for_of registrations batch (fun batch registration =>
           batch_set batch (cancelled_notification event registration)) in
       let* _ := batch_commit batch in
       console_log ("Notified " +:+ pretty (length registrations)
                    +:+ " students about cancellation"))
    (fun error => console_error "Error in onEventDeleted:" error).


Definition reminder_notification {D} (event : Event D) (eventDoc_id : string)
  (registration : Registration) : NotificationDoc :=
  {| userId := studentId registration;
     type_ := event_reminder;
     message := "Reminder: " +:+ dquote +:+ title event +:+ dquote +:+ " is happening soon!";
     eventId := Val eventDoc_id;
     link := Val ("/events/" +:+ eventDoc_id);
     isRead := false;
     n_createdAt := serverTimestamp |}.

(** The scheduled sweep.  The clock is read twice, by [Timestamp.now()] and
    by [Date.now()]; the two readings, in milliseconds, are the arguments. *)
Definition sendEventReminders (clock_now clock_date_now : Z) : M unit :=
  try_catch
    (let* _ := console_log "Running scheduled event reminders" in
     let now := Timestamp_fromMillis clock_now in
     let tomorrow := Timestamp_fromMillis (clock_date_now + 24 * 60 * 60 * 1000) in
     let* eventsSnapshot :=
       get_events (where_date_le (where_date_ge collection now) tomorrow) in
     if (length eventsSnapshot =? 0)%nat then console_log "No events in the next 24 hours"
     else
       let batch := db_batch in
       let notificationCount := 0%nat in
       let* counted :=
         for_of eventsSnapshot (batch, notificationCount) (fun counted eventDoc =>
           let* event := snapshot_data eventDoc.2 in
           let registrations := or_empty (registrations event) in
           for_of registrations counted (fun counted registration =>
             let* batch :=
               batch_set counted.1 (reminder_notification event eventDoc.1 registration) in
             ret (batch, S counted.2))) in
       let batch := counted.1 in
       let notificationCount := counted.2 in
       if (0 <? notificationCount)%nat then
         let* _ := batch_commit batch in
         console_log ("Sent " +:+ pretty notificationCount +:+ " event reminders")
       else ret tt)
    (fun error => console_error "Error in sendEventReminders:" error).

(** *** User management callables *)

(** [admin.auth().deleteUser(uid)] *)
Definition auth_deleteUser (id : string) : M unit :=
  fun w =>
    match auth_fault (faults w) id with
    | Some e => (Thrown e, w)
    | None =>
        (Returned tt,
         {| users := users w; events := events w; accounts := accounts w ∖ {[ id ]};
            notifications := notifications w; commits := commits w;
            console := console w;
            next_object := next_object w; faults := faults w |})
    end.

(** [db.collection('users').doc(id).delete()] *)
Definition users_doc_delete (id : string) : M unit :=
  fun w =>
    match delete_fault (faults w) with
    | Some e => (Thrown e, w)
    | None =>
        (Returned tt,
         {| users := delete id (users w); events := events w; accounts := accounts w;
            notifications := notifications w; commits := commits w;
            console := console w;
            next_object := next_object w; faults := faults w |})
    end.

(** The value [{ success: true }] the callable resolves with. *)
Record DeleteUserResult := { success : bool }.

(** [deleteUser(data, context)], with [data.userId] and the [uid] of
    [context.auth] when the caller is signed in. *)
Definition deleteUser (data_userId : string) (context_auth : option string)
  : M DeleteUserResult :=
  match context_auth with
  | None => throw (HttpsError unauthenticated "Must be authenticated")
  | Some auth_uid =>
      try_catch
        (let* caller := get_user auth_uid in
         match caller with
         | None => throw (HttpsError permission_denied "Only admins can delete users")
         | Some caller =>
             if negb (bool_decide (user_role caller = ADMIN))
             then throw (HttpsError permission_denied "Only admins can delete users")
             else if String.eqb data_userId auth_uid
             then throw (HttpsError invalid_argument "Cannot delete your own account")
             else
               let* userToDelete := get_user data_userId in
               match userToDelete with
               | None =>
                   throw (HttpsError permission_denied
                            "Cannot delete users from other institutions")
               | Some userToDelete =>
                   if negb (String.eqb (user_institution userToDelete) (user_institution caller))
                   then throw (HttpsError permission_denied
                                 "Cannot delete users from other institutions")
                   else
                     let* _ := auth_deleteUser data_userId in
                     let* _ := users_doc_delete data_userId in
                     let* _ := console_log ("User deleted: " +:+ data_userId) in
                     ret {| success := true |}
               end
         end)
        (fun error =>
           let* _ := console_error "Error deleting user:" error in
           throw (HttpsError internal (or_default (message_of error) "Failed to delete user")))
  end.

(** *** Notions the statements are phrased with *)

(** The error of the first [batch.set] of [docs] the platform refuses. *)
Fixpoint first_set_fault (F : Faults) (docs : list NotificationDoc) : option Error :=
  match docs with
  | [] => None
  | d :: ds =>
      match set_fault F d with
      | Some e => Some e
      | None => first_set_fault F ds
      end
  end.

(** The error building and committing [batch] ends with, if any. *)
Definition failure (F : Faults) (batch : list NotificationDoc) : option Error :=
  match first_set_fault F batch with
  | Some e => Some e
  | None => commit_fault F batch
  end.

(** The two components of the world a fan-out touches. *)
Definition stores (w : World) : list (list NotificationDoc) * list NotificationDoc :=
  (commits w, notifications w).

(** What building [batch] and committing it once does to them. *)
Definition fan_out_effect (F : Faults) (batch : list NotificationDoc) (w : World)
  : list (list NotificationDoc) * list NotificationDoc :=
  match first_set_fault F batch with
  | Some _ => stores w
  | None =>
      (commits w ++ [batch],
       match commit_fault F batch with
       | Some _ => notifications w
       | None => notifications w ++ batch
       end)
  end.

(** The batches handed to [commit] and the records written between [w] and
    [w']. *)
Definition submitted (w w' : World) : list (list NotificationDoc) :=
  drop (length (commits w)) (commits w').

Definition written (w w' : World) : list NotificationDoc :=
  drop (length (notifications w)) (notifications w').

(** Between [w] and [w'] either nothing was handed to [commit], or [batch]
    was, once, and then all of it was written or none of it. *)
Definition one_commit (batch : list NotificationDoc) (w w' : World) : Prop :=
  (submitted w w' = [] ∧ written w w' = []) ∨
  (submitted w w' = [batch] ∧ (written w w' = [] ∨ written w w' = batch)).

(** The last console entry of [w'] is the report of the failure, if there
    was one. *)
Definition logged_last (text : string) (failed : option Error) (w' : World) : Prop :=
  match failed with
  | Some e => last (console w') = Some (LogError text e)
  | None => True
  end.

(** The users [onEventCreated] adds a notification for. *)
Definition recipients_created (snap : EventDoc) (w : World) : list AudienceUser :=
  filter (fun user => uid user ≠ creatorId snap)
    (map audience_user
       (run_query (audience_query (institution snap) (targetAudience snap)) (users w))).

(** The events the sweep's query selects, and the reminders for them. *)
Definition upcoming (clock_now clock_date_now : Z) (w : World) : list (string * EventDoc) :=
  run_query
    (where_date_le (where_date_ge collection (Timestamp_fromMillis clock_now))
       (Timestamp_fromMillis (clock_date_now + 24 * 60 * 60 * 1000)))
    (events w).

Definition reminders_of (docs : list (string * EventDoc)) : list NotificationDoc :=
  flat_map (fun doc => map (reminder_notification doc.2 doc.1)
                         (or_empty (registrations doc.2))) docs.

Definition sweep_failure (F : Faults) (batch : list NotificationDoc) : option Error :=
  match get_fault F with
  | Some e => Some e
  | None =>
      match batch with
      | [] => None
      | _ => failure F batch
      end
  end.

(** [w] after [k] more objects have been allocated. *)
Definition alloc (k : nat) (w : World) : World :=
  {| users := users w; events := events w; accounts := accounts w;
     notifications := notifications w; commits := commits w;
     console := console w;
     next_object := k + next_object w; faults := faults w |}.

(** The restriction a descriptor puts on a student, as the specification
    words it: [Department(v)] asks for department [v], [Class(v)] for class
    [v], [General] for nothing more. *)
Definition spec_restriction (ta : TargetAudience) (doc : UserDoc) : Prop :=
  match ta_type ta with
  | GENERAL => True
  | DEPARTMENT => user_department doc = Some (value_of ta)
  | CLASS => user_class doc = Some (value_of ta)
  end.

(** The restriction the code applies: the same, when the value is a
    non-empty string, and none otherwise. *)
Definition audience_restriction (ta : TargetAudience) (doc : UserDoc) : Prop :=
  match ta_type ta, ta_value ta with
  | DEPARTMENT, Some v => v ≠ EmptyString -> user_department doc = Some v
  | CLASS, Some v => v ≠ EmptyString -> user_class doc = Some v
  | _, _ => True
  end.

(** The window of the sweep for one reading [now] of the clock. *)
Definition in_window (now : Z) (d : Timestamp) : Prop :=
  ts_leb (Timestamp_fromMillis now) d = true /\
  ts_leb d (Timestamp_fromMillis (now + 24 * 60 * 60 * 1000)) = true.

End Functions.

(** ** src/lib/firestore.ts: registration and feedback *)

Module Client.

(** The state the client library runs against: the signed-in user of the
    ambient [auth] object, the [events] collection, the time the server
    stamps writes with, the console, and the errors [getDoc] and
    [updateDoc] may reject with. *)
Record World := {
  currentUser : option string;
  events : gmap string EventDoc;
  server_time : Timestamp;
  console : list LogEntry;
  getDoc_fault : option Error;
  updateDoc_fault : option Error
}.

Abbreviation M := (Eff World).

Definition console_error (text : string) (error : Error) : M unit :=
  fun w =>
    (Returned tt,
     {| currentUser := currentUser w; events := events w;
        server_time := server_time w;
        console := console w ++ [LogError text error];
        getDoc_fault := getDoc_fault w; updateDoc_fault := updateDoc_fault w |}).

Definition checkAuth : M string :=
  fun w =>
    match currentUser w with
    | None => (Thrown (AppError UNAUTHORIZED "User not authenticated" 401), w)
    | Some uid => (Returned uid, w)
    end.

(** [getDoc(doc(db, COLLECTIONS.EVENTS, eventId))]: [None] is a snapshot
    whose [exists()] is false. *)
Definition getDoc (eventId : string) : M (option EventDoc) :=
  fun w =>
    match getDoc_fault w with
    | Some e => (Thrown e, w)
    | None => (Returned (events w !! eventId), w)
    end.

(** [arrayUnion(x)] applied to an array field: [x] is appended unless an
    equal element is there already. *)
Definition arrayUnion {A} `{EqDecision A} (x : A) (arr : option (list A)) : list A :=
  let l := or_empty arr in
  if bool_decide (x ∈ l) then l else l ++ [x].

(** An element handed to [arrayUnion]: a plain value, or an object one of
    whose fields is the [serverTimestamp()] sentinel, given as the value it
    would be for each time of the server. *)
Inductive Element (A : Type) : Type :=
| Plain (a : A)
| Stamped (f : Timestamp -> A).
Arguments Plain {A} a.
Arguments Stamped {A} f.

(** [updateDoc(eventRef, fields)]: [fields] rewrites the stored document,
    given the time the server resolves [serverTimestamp()] to. *)
Definition updateDoc (eventId : string) (fields : Timestamp -> EventDoc -> EventDoc) : M unit :=
  fun w =>
    match updateDoc_fault w with
    | Some e => (Thrown e, w)
    | None =>
        match events w !! eventId with
        | None => (Thrown (PlatformError "No document to update"), w)
        | Some doc =>
            (Returned tt,
             {| currentUser := currentUser w;
                events := <[ eventId := fields (server_time w) doc ]> (events w);
                server_time := server_time w;
                console := console w;
                getDoc_fault := getDoc_fault w; updateDoc_fault := updateDoc_fault w |})
        end
    end.

(** [updateDoc(eventRef, { field: arrayUnion(element), updatedAt:
    serverTimestamp() })], for the array field that [read] reads and
    [write] writes.  The SDK parses the data before it sends anything, and
    refuses a [serverTimestamp()] inside the argument of [arrayUnion]. *)
Definition updateDoc_arrayUnion {A} `{EqDecision A} (eventId : string)
  (element : Element A) (read : EventDoc -> option (list A))
  (write : list A -> Timestamp -> EventDoc -> EventDoc) : M unit :=
  match element with
  | Stamped _ =>
      throw (PlatformError
               "Function arrayUnion() called with invalid data. serverTimestamp() can only be used with update() and set()")
  | Plain x =>
      updateDoc eventId (fun now doc => write (arrayUnion x (read doc)) now doc)
  end.

(** [Omit<Registration, 'registeredAt'>] *)
Record RegistrationInput := {
  reg_studentId : string;
  reg_studentName : string;
  reg_studentEmail : string
}.

(** [Omit<Feedback, 'submittedAt'>] *)
Record FeedbackInput := {
  in_studentId : string;
  in_studentName : string;
  in_rating : Z;
  in_comment : string
}.

(** [arr?.some(pred)], falsy when the array is missing. *)
Definition optional_some {A} (arr : option (list A)) (pred : A -> bool) : bool :=
  match arr with
  | Some l => existsb pred l
  | None => false
  end.

Definition set_registrations (regs : list Registration) (now : Timestamp) (doc : EventDoc)
  : EventDoc :=
  {| title := title doc; description := description doc; date := date doc;
     location := location doc; creatorId := creatorId doc;
     creatorName := creatorName doc; institution := institution doc;
     targetAudience := targetAudience doc;
     registrations := Some regs; feedback := feedback doc;
     createdAt := createdAt doc; updatedAt := now |}.

Definition set_feedback (fbs : list Feedback) (now : Timestamp) (doc : EventDoc)
  : EventDoc :=
  {| title := title doc; description := description doc; date := date doc;
     location := location doc; creatorId := creatorId doc;
     creatorName := creatorName doc; institution := institution doc;
     targetAudience := targetAudience doc;
     registrations := registrations doc; feedback := Some fbs;
     createdAt := createdAt doc; updatedAt := now |}.

Definition registerForEvent (eventId : string) (registration : RegistrationInput) : M unit :=
  try_catch
    (let* _ := checkAuth in
     let* eventSnap := getDoc eventId in
     match eventSnap with
     | None => throw (AppError NOT_FOUND "Event not found" 404)
     | Some event =>
         let isAlreadyRegistered :=
           optional_some (registrations event)
             (fun r => String.eqb (studentId r) (reg_studentId registration)) in
         if isAlreadyRegistered
         then throw (AppError ALREADY_EXISTS "Already registered for this event" 409)
         else
           updateDoc_arrayUnion eventId
             (Stamped (fun now =>
                {| studentId := reg_studentId registration;
                   studentName := reg_studentName registration;
                   studentEmail := reg_studentEmail registration;
                   registeredAt := now |}))
             registrations set_registrations
     end)
    (fun error =>
       let* _ := console_error "Register for event error:" error in
       if instanceof_AppError error then throw error
       else throw (AppError INTERNAL_ERROR "Failed to register for event" 500)).

Definition submitFeedback (eventId : string) (fb : FeedbackInput) : M unit :=
  try_catch
    (let* _ := checkAuth in
     let* eventSnap := getDoc eventId in
     match eventSnap with
     | None => throw (AppError NOT_FOUND "Event not found" 404)
     | Some event =>
         let hasAlreadySubmitted :=
           optional_some (feedback event)
             (fun f => String.eqb (fb_studentId f) (in_studentId fb)) in
         if hasAlreadySubmitted
         then throw (AppError ALREADY_EXISTS "Feedback already submitted" 409)
         else
           updateDoc_arrayUnion eventId
             (Stamped (fun now =>
                {| fb_studentId := in_studentId fb;
                   fb_studentName := in_studentName fb;
                   rating := in_rating fb;
                   comment := in_comment fb;
                   submittedAt := now |}))
             feedback set_feedback
     end)
    (fun error =>
       let* _ := console_error "Submit feedback error:" error in
       if instanceof_AppError error then throw error
       else throw (AppError INTERNAL_ERROR "Failed to submit feedback" 500)).

End Client.

(** ** Sample data *)

Module Samples.
Import Functions.

Definition student (institution department class_ : string) : UserDoc :=
  {| user_uid := None; user_email := "student@example.com"; user_role := STUDENT;
     user_institution := institution;
     user_department := Some department; user_class := Some class_ |}.

Definition staff (role : UserRole) (institution : string) : UserDoc :=
  {| user_uid := None; user_email := "staff@example.com"; user_role := role;
     user_institution := institution;
     user_department := None; user_class := None |}.

(** A campus with an admin, a lecturer and two students, and a second
    institution with an admin and a student. *)
Definition campus_users : gmap string UserDoc :=
  list_to_map
    [ ("admin-uid", staff ADMIN "State University");
      ("lecturer-uid", staff LECTURER "State University");
      ("alice", student "State University" "Computer Science" "CS101");
      ("bob", student "State University" "Physics" "PH201");
      ("other-admin", staff ADMIN "Other College");
      ("carol", student "Other College" "Physics" "PH201") ].

Definition world_of (us : gmap string UserDoc) (es : gmap string EventDoc) : World :=
  {| users := us; events := es; accounts := ∅;
     notifications := []; commits := []; console := [];
     next_object := 0; faults := no_faults |}.

Definition campus : World := world_of campus_users ∅.

Definition registration_of (id : string) : Registration :=
  {| studentId := id; studentName := id; studentEmail := id +:+ "@example.com";
     registeredAt := Timestamp_fromMillis 0 |}.

Definition event_at (date : Timestamp) (description location : string)
  (audience : TargetAudience) (regs : list string) : EventDoc :=
  {| title := "Fair"; description := description; date := date;
     location := location; creatorId := "lecturer-uid";
     creatorName := "John Doe"; institution := "State University";
     targetAudience := audience;
     registrations := Some (map registration_of regs); feedback := Some [];
     createdAt := Timestamp_fromMillis 0; updatedAt := Timestamp_fromMillis 0 |}.

Definition general : TargetAudience := {| ta_type := GENERAL; ta_value := None |}.

Definition department_of (v : string) : TargetAudience :=
  {| ta_type := DEPARTMENT; ta_value := Some v |}.

Definition department_missing : TargetAudience :=
  {| ta_type := DEPARTMENT; ta_value := None |}.

Definition noon : Timestamp := Timestamp_fromMillis 43200000.

(** The lecturer who created the event is among its registrations. *)
Definition fair_with_creator : EventDoc :=
  event_at noon "Annual fair" "Hall A" general ["lecturer-uid"; "alice"].

(** Two snapshots of one event that differ in the description only. *)
Definition fair_before : EventDoc :=
  event_at noon "Annual fair" "Hall A" general ["alice"].

Definition fair_after : EventDoc :=
  event_at noon "Annual fair, with refreshments" "Hall A" general ["alice"].

(** [n] students of one institution, with ids [s0], [s1], ... *)
Definition crowd (n : nat) : gmap string UserDoc :=
  list_to_map
    (map (fun i : nat => ("s" +:+ pretty i, student "State University" "Physics" "PH201"))
       (seq 0 n)).

(** A day of reminders: one event twelve hours ahead with two registrants,
    one forty-eight hours ahead. *)
Definition sweep_events : gmap string EventDoc :=
  list_to_map
    [ ("soon", event_at (Timestamp_fromMillis (12 * 60 * 60 * 1000)) "d" "Hall A" general
                 ["alice"; "bob"]);
      ("later", event_at (Timestamp_fromMillis (48 * 60 * 60 * 1000)) "d" "Hall B" general
                  ["alice"]) ].

(** Two events a day and a millisecond apart, each with one registration. *)
Definition skewed_events : gmap string EventDoc :=
  list_to_map
    [ ("early", event_at (Timestamp_fromMillis 0) "d" "Hall A" general ["alice"]);
      ("late", event_at (Timestamp_fromMillis (24 * 60 * 60 * 1000 + 1)) "d" "Hall B"
                 general ["bob"]) ].

End Samples.

Module ClientSamples.
Import Client.

(** An event Alice has registered for and given feedback on, and a session
    in which she is signed in. *)
Definition alice_registration : RegistrationInput :=
  {| reg_studentId := "alice"; reg_studentName := "Alice Smith";
     reg_studentEmail := "alice@example.com" |}.

Definition alice_feedback : FeedbackInput :=
  {| in_studentId := "alice"; in_studentName := "Alice Smith";
     in_rating := 5; in_comment := "Great" |}.

Definition attended : EventDoc :=
  {| title := "Fair"; description := "Annual fair";
     date := Timestamp_fromMillis 0; location := "Hall A";
     creatorId := "lecturer-uid"; creatorName := "John Doe";
     institution := "State University";
     targetAudience := {| ta_type := GENERAL; ta_value := None |};
     registrations :=
       Some [ {| studentId := "alice"; studentName := "Alice Smith";
                 studentEmail := "alice@example.com";
                 registeredAt := Timestamp_fromMillis 0 |} ];
     feedback :=
       Some [ {| fb_studentId := "alice"; fb_studentName := "Alice Smith";
                 rating := 4; comment := "Good";
                 submittedAt := Timestamp_fromMillis 0 |} ];
     createdAt := Timestamp_fromMillis 0; updatedAt := Timestamp_fromMillis 0 |}.

Definition signed_in : World :=
  {| currentUser := Some "alice"; events := {[ "e1" := attended ]};
     server_time := Timestamp_fromMillis 1000; console := [];
     getDoc_fault := None; updateDoc_fault := None |}.

End ClientSamples.

(** ** functions/src/index.ts: createUser *)

Module Provisioning.
Import Functions.

(** The [data] argument of [createUser]. *)
Record CreateUserData := {
  cu_email : string;
  cu_temporaryPassword : string;
  cu_role : UserRole;
  cu_department : option string;
  cu_class : option string
}.

(** What [createUser] asks of the platform beyond [Faults]:
    [admin.auth().createUser] answers with the uid of the new account or
    rejects, and the [set] of the user document may reject. *)
Record Directory := {
  new_account : string -> string -> Error + string;
  set_user_fault : option Error
}.

(** [v || null] on an optional string field. *)
Definition or_null (v : option string) : option string :=
  if truthy v then v else None.

(** [admin.auth().createUser({ email, password, emailVerified: false })] *)
Definition auth_createUser (D : Directory) (email password : string) : M string :=
  fun w =>
    match new_account D email password with
    | inl e => (Thrown e, w)
    | inr id =>
        (Returned id,
         {| users := users w; events := events w; accounts := {[ id ]} ∪ accounts w;
            notifications := notifications w; commits := commits w;
            console := console w;
            next_object := next_object w; faults := faults w |})
    end.

(** [db.collection('users').doc(id).set(doc)] *)
Definition users_doc_set (D : Directory) (id : string) (doc : UserDoc) : M unit :=
  fun w =>
    match set_user_fault D with
    | Some e => (Thrown e, w)
    | None =>
        (Returned tt,
         {| users := <[ id := doc ]> (users w); events := events w;
            accounts := accounts w;
            notifications := notifications w; commits := commits w;
            console := console w;
            next_object := next_object w; faults := faults w |})
    end.

(** The value the callable resolves with. *)
Record CreateUserResult := {
  cr_success : bool;
  cr_userId : string;
  cr_email : string;
  cr_temporaryPassword : string
}.

(** The document [createUser] stores, in the fields [UserDoc] has; the
    [username] and the two server timestamps written with them are read by
    no function and are not represented. *)
Definition created_user_doc (id : string) (data : CreateUserData) (caller : UserDoc)
  : UserDoc :=
  {| user_uid := Some id;
     user_email := cu_email data;
     user_role := cu_role data;
     user_institution := user_institution caller;
     user_department := or_null (cu_department data);
     user_class := or_null (cu_class data) |}.

(** [createUser(data, context)], with the [uid] of [context.auth] when the
    caller is signed in. *)
Definition createUser (D : Directory) (data : CreateUserData) (context_auth : option string)
  : M CreateUserResult :=
  match context_auth with
  | None => throw (HttpsError unauthenticated "Must be authenticated")
  | Some auth_uid =>
      try_catch
        (let* caller := get_user auth_uid in
         match caller with
         | None => throw (HttpsError permission_denied "Only admins can create users")
         | Some caller =>
             if negb (bool_decide (user_role caller = ADMIN))
             then throw (HttpsError permission_denied "Only admins can create users")
             else
               let* userRecord_uid :=
                 auth_createUser D (cu_email data) (cu_temporaryPassword data) in
               let* _ :=
                 users_doc_set D userRecord_uid
                   (created_user_doc userRecord_uid data caller) in
               let* _ :=
                 console_log ("User created: " +:+ cu_email data
                              +:+ " (" +:+ userRecord_uid +:+ ")") in
               ret {| cr_success := true;
                      cr_userId := userRecord_uid;
                      cr_email := cu_email data;
                      cr_temporaryPassword := cu_temporaryPassword data |}
         end)
        (fun error =>
           let* _ := console_error "Error creating user:" error in
           throw (HttpsError internal (or_default (message_of error) "Failed to create user")))
  end.

(** A computation that leaves the collections it reads, the accounts and
    the faults as they were. *)
Definition keeps_collections {A} (m : M A) : Prop :=
  forall w,
    users (m w).2 = users w /\ events (m w).2 = events w /\
    accounts (m w).2 = accounts w /\ faults (m w).2 = faults w.

(** The conditions under which [deleteUser] goes through. *)
Definition may_delete (w : World) (auth_uid data_userId : string) : Prop :=
  exists caller target,
    users w !! auth_uid = Some caller /\ user_role caller = ADMIN /\
    data_userId <> auth_uid /\
    users w !! data_userId = Some target /\
    user_institution target = user_institution caller.

End Provisioning.

(** ** src/lib/firestore.ts: unregistration and event updates *)

Module ClientEvents.
Import Client.

(** [arr?.find(pred)]: the first element that passes, if any. *)
Definition optional_find {A} (arr : option (list A)) (pred : A -> bool) : option A :=
  match arr with
  | Some l => List.find pred l
  | None => None
  end.

(** [arrayRemove(x)] applied to an array field: every element equal to [x]
    is removed. *)
Definition arrayRemove {A} `{EqDecision A} (x : A) (arr : option (list A)) : list A :=
  filter (fun y => y <> x) (or_empty arr).

Definition unregisterFromEvent (eventId : string) (student : string) : M unit :=
  try_catch
    (let* _ := checkAuth in
     let* eventSnap := getDoc eventId in
     match eventSnap with
     | None => throw (AppError NOT_FOUND "Event not found" 404)
     | Some event =>
         let registration :=
           optional_find (registrations event)
             (fun r => String.eqb (studentId r) student) in
         match registration with
         | None => throw (AppError NOT_FOUND "Registration not found" 404)
         | Some registration =>
             updateDoc eventId (fun now doc =>
               set_registrations (arrayRemove registration (registrations doc)) now doc)
         end
     end)
    (fun error =>
       let* _ := console_error "Unregister from event error:" error in
       if instanceof_AppError error then throw error
       else throw (AppError INTERNAL_ERROR "Failed to unregister from event" 500)).

(** [Partial<Omit<Event, 'id' | 'registrations' | 'feedback'>>]: the fields
    an update may carry. *)
Record EventUpdates := {
  up_title : option string;
  up_description : option string;
  up_date : option Timestamp;
  up_location : option string;
  up_creatorId : option string;
  up_creatorName : option string;
  up_institution : option string;
  up_targetAudience : option TargetAudience;
  up_createdAt : option Timestamp;
  up_updatedAt : option Timestamp
}.

(** The document after [{ ...updates, updatedAt: serverTimestamp() }] has
    been merged into it. *)
Definition apply_updates (updates : EventUpdates) (now : Timestamp) (doc : EventDoc)
  : EventDoc :=
  {| title := default (title doc) (up_title updates);
     description := default (description doc) (up_description updates);
     date := default (date doc) (up_date updates);
     location := default (location doc) (up_location updates);
     creatorId := default (creatorId doc) (up_creatorId updates);
     creatorName := default (creatorName doc) (up_creatorName updates);
     institution := default (institution doc) (up_institution updates);
     targetAudience := default (targetAudience doc) (up_targetAudience updates);
     registrations := registrations doc;
     feedback := feedback doc;
     createdAt := default (createdAt doc) (up_createdAt updates);
     updatedAt := now |}.

Definition updateEvent (eventId : string) (updates : EventUpdates) : M unit :=
  try_catch
    (let* _ := checkAuth in
     updateDoc eventId (apply_updates updates))
    (fun error =>
       let* _ := console_error "Update event error:" error in
       if instanceof_AppError error then throw error
       else throw (AppError INTERNAL_ERROR "Failed to update event" 500)).

(** An event holds at most one registration and at most one feedback per
    student. *)
Definition at_most_once (event : EventDoc) : Prop :=
  NoDup (map studentId (or_empty (registrations event))) /\
  NoDup (map fb_studentId (or_empty (feedback event))).

Definition store_at_most_once (w : World) : Prop :=
  forall id event, events w !! id = Some event -> at_most_once event.

(** A session with nobody signed in, and an update of the description. *)
Definition signed_out : World :=
  {| currentUser := None; events := events ClientSamples.signed_in;
     server_time := Timestamp_fromMillis 1000; console := [];
     getDoc_fault := None; updateDoc_fault := None |}.

Definition new_description : EventUpdates :=
  {| up_title := None; up_description := Some "Annual fair, with refreshments";
     up_date := None; up_location := None; up_creatorId := None;
     up_creatorName := None; up_institution := None; up_targetAudience := None;
     up_createdAt := None; up_updatedAt := Some (Timestamp_fromMillis 5) |}.

End ClientEvents.

(** * Properties of the Cloud Functions *)

Module FunctionsFacts.
Import Functions Samples.

(** ** Loops over a write batch *)

Local Arguments for_of : simpl never.
Local Arguments decode : simpl never.
Local Arguments first_set_fault : simpl never.

Lemma for_of_batch_set {A} (f : A -> NotificationDoc) (l : list A) batch (w : World) :
  for_of l batch (fun batch x => batch_set batch (f x)) w =
  match first_set_fault (faults w) (map f l) with
  | Some e => (Thrown e, w)
  | None => (Returned (batch ++ map f l), w)
  end.
Proof.
  revert batch. induction l as [|x l IH]; intros batch.
  - unfold for_of, ret. cbn. by rewrite app_nil_r.
  - unfold for_of; fold (@for_of World A (list NotificationDoc)).
    cbn [map]. unfold first_set_fault; fold first_set_fault.
    unfold bind, batch_set at 1. destruct (set_fault (faults w) (f x)); [done|].
    rewrite IH. destruct (first_set_fault _ _); [done|].
    by rewrite <- app_assoc.
Qed.

Lemma for_of_skip_creator (f : AudienceUser -> NotificationDoc) cid
    (l : list AudienceUser) batch (w : World) :
  for_of l batch (fun batch user =>
    if String.eqb (uid user) cid then ret batch else batch_set batch (f user)) w =
  for_of (filter (fun user => uid user ≠ cid) l) batch
    (fun batch user => batch_set batch (f user)) w.
Proof.
  revert batch. induction l as [|x l IH]; intros batch; [done|].
  rewrite filter_cons.
  unfold for_of at 1; fold (@for_of World AudienceUser (list NotificationDoc)).
  unfold bind at 1.
  destruct (String.eqb_spec (uid x) cid) as [Heq|Hne].
  - rewrite decide_False by (intros H; by apply H). unfold ret. apply IH.
  - rewrite decide_True by done.
    unfold for_of at 2; fold (@for_of World AudienceUser (list NotificationDoc)).
    unfold bind at 1.
    unfold batch_set at 1 3. destruct (set_fault _ _); [done|]. apply IH.
Qed.

Ltac run_handler :=
  unfold bind, try_catch, snapshot_data, console_log, console_error, ret,
    batch_commit, get_users, get_events; simpl.

Ltac finish :=
  eexists; split; [reflexivity | split; simpl; rewrite ?last_snoc; done].

Lemma cancelled_notification_decode n snap :
  cancelled_notification (decode n snap) = cancelled_notification snap.
Proof. reflexivity. Qed.

Lemma onEventDeleted_run snap id w :
  ∃ w', onEventDeleted snap id w = (Returned tt, w') ∧
    stores w' =
      match or_empty (registrations snap) with
      | [] => stores w
      | regs => fan_out_effect (faults w) (map (cancelled_notification snap) regs) w
      end ∧
    logged_last "Error in onEventDeleted:"
      match or_empty (registrations snap) with
      | [] => None
      | regs => failure (faults w) (map (cancelled_notification snap) regs)
      end w'.
Proof.
  unfold onEventDeleted, stores, fan_out_effect, failure, logged_last. run_handler.
  rewrite cancelled_notification_decode.
  destruct (registrations snap) as [[|r regs]|]; simpl; try finish.
  rewrite for_of_batch_set. simpl.
  destruct (first_set_fault _ _); simpl; [finish|].
  destruct (commit_fault _ _); simpl; finish.
Qed.

Lemma created_notification_decode n snap :
  created_notification (decode n snap) = created_notification snap.
Proof. reflexivity. Qed.

Lemma onEventCreated_run snap id w :
  ∃ w', onEventCreated snap id w = (Returned tt, w') ∧
    stores w' =
      match get_fault (faults w) with
      | Some _ => stores w
      | None =>
          fan_out_effect (faults w)
            (map (created_notification snap id) (recipients_created snap w)) w
      end ∧
    logged_last "Error in onEventCreated:"
      match get_fault (faults w) with
      | Some e => Some e
      | None =>
          failure (faults w)
            (map (created_notification snap id) (recipients_created snap w))
      end w'.
Proof.
  unfold onEventCreated, getTargetAudience, stores, fan_out_effect, failure,
    logged_last, recipients_created.
  run_handler. rewrite created_notification_decode.
  destruct (get_fault (faults w)); [finish|].
  change (creatorId (decode _ snap)) with (creatorId snap).
  change (institution (decode _ snap)) with (institution snap).
  change (targetAudience (decode _ snap)) with (targetAudience snap).
  rewrite for_of_skip_creator, for_of_batch_set. simpl.
  destruct (first_set_fault _ _); simpl; [finish|].
  destruct (commit_fault _ _); simpl; finish.
Qed.

Lemma strict_neq_object_fresh n (a b : Timestamp) :
  strict_neq_object {| obj_id := n; obj_value := a |}
                    {| obj_id := S (S (S n)); obj_value := b |} = true.
Proof.
  unfold strict_neq_object. cbn [obj_id].
  destruct (Nat.eqb_spec n (S (S (S n)))) as [H|H]; [lia|done].
Qed.

Lemma criticalFieldsChanged_decoded n before after :
  criticalFieldsChanged (decode n before) (decode (S (S (S n))) after) = true.
Proof.
  unfold criticalFieldsChanged, decode. cbn [date title location].
  rewrite strict_neq_object_fresh. by rewrite orb_true_r.
Qed.

Lemma updated_notification_decode n snap :
  updated_notification (decode n snap) = updated_notification snap.
Proof. reflexivity. Qed.

Lemma onEventUpdated_run before after id w :
  ∃ w', onEventUpdated before after id w = (Returned tt, w') ∧
    stores w' =
      match or_empty (registrations after) with
      | [] => stores w
      | regs => fan_out_effect (faults w) (map (updated_notification after id) regs) w
      end ∧
    logged_last "Error in onEventUpdated:"
      match or_empty (registrations after) with
      | [] => None
      | regs => failure (faults w) (map (updated_notification after id) regs)
      end w'.
Proof.
  unfold onEventUpdated, stores, fan_out_effect, failure, logged_last. run_handler.
  rewrite criticalFieldsChanged_decoded, updated_notification_decode. simpl.
  change (registrations (decode _ after)) with (registrations after).
  destruct (registrations after) as [[|r regs]|]; simpl; try finish.
  rewrite for_of_batch_set. simpl.
  destruct (first_set_fault _ _); simpl; [finish|].
  destruct (commit_fault _ _); simpl; finish.
Qed.

Lemma alloc_0 w : alloc 0 w = w.
Proof. by destruct w. Qed.

Lemma alloc_alloc a b w : alloc a (alloc b w) = alloc (a + b) w.
Proof. unfold alloc. simpl. f_equal. lia. Qed.

Lemma first_set_fault_app F a b :
  first_set_fault F (a ++ b) =
  match first_set_fault F a with
  | Some e => Some e
  | None => first_set_fault F b
  end.
Proof.
  induction a as [|d a IH]; [done|].
  cbn [app]. unfold first_set_fault; fold first_set_fault.
  destruct (set_fault F d); [done|apply IH].
Qed.

Lemma for_of_counted {A} (f : A -> NotificationDoc) (l : list A)
    (counted : list NotificationDoc * nat) (w : World) :
  for_of l counted (fun counted x =>
    let* batch := batch_set counted.1 (f x) in ret (batch, S counted.2)) w =
  match first_set_fault (faults w) (map f l) with
  | Some e => (Thrown e, w)
  | None => (Returned (counted.1 ++ map f l, (counted.2 + length l)%nat), w)
  end.
Proof.
  revert counted. induction l as [|x l IH]; intros [batch n].
  - unfold for_of, ret. cbn. by rewrite app_nil_r, Nat.add_0_r.
  - unfold for_of; fold (@for_of World A (list NotificationDoc * nat)).
    cbn [map]. unfold first_set_fault; fold first_set_fault.
    unfold bind at 1. unfold bind at 1. unfold batch_set at 1. cbn [fst snd].
    destruct (set_fault (faults w) (f x)); [done|].
    unfold ret at 1. rewrite IH. cbn [fst snd].
    destruct (first_set_fault _ _); [done|].
    replace (S n + length l)%nat with (n + length (x :: l))%nat by (simpl; lia).
    by rewrite <- app_assoc.
Qed.

Lemma reminder_notification_decode n snap :
  reminder_notification (decode n snap) = reminder_notification snap.
Proof. reflexivity. Qed.

Lemma for_of_reminders (docs : list (string * EventDoc))
    (counted : list NotificationDoc * nat) (w : World) :
  ∃ k,
    for_of docs counted (fun counted eventDoc =>
      let* event := snapshot_data eventDoc.2 in
      let registrations := or_empty (registrations event) in
      for_of registrations counted (fun counted registration =>
        let* batch :=
          batch_set counted.1 (reminder_notification event eventDoc.1 registration) in
        ret (batch, S counted.2))) w =
    (match first_set_fault (faults w) (reminders_of docs) with
     | Some e => Thrown e
     | None => Returned (counted.1 ++ reminders_of docs,
                         (counted.2 + length (reminders_of docs))%nat)
     end, alloc k w).
Proof.
  match goal with |- context [for_of docs counted ?b w] => set (body := b) end.
  revert counted w. induction docs as [|[id doc] docs IH]; intros counted w.
  - exists 0%nat. unfold for_of, ret, reminders_of. cbn.
    rewrite app_nil_r, Nat.add_0_r, alloc_0. by destruct counted.
  - unfold for_of; fold (@for_of World (string * EventDoc) (list NotificationDoc * nat)).
    unfold bind at 1. unfold body at 1. unfold bind at 1. unfold snapshot_data at 1.
    cbn [fst snd]. change (registrations (decode _ doc)) with (registrations doc).
    rewrite (for_of_counted (reminder_notification (decode (next_object w) doc) id)).
    rewrite reminder_notification_decode. cbn [faults].
    change {| users := users w; events := events w; accounts := accounts w;
              notifications := notifications w; commits := commits w;
              console := console w; next_object := S (S (S (next_object w)));
              faults := faults w |} with (alloc 3 w).
    unfold reminders_of; fold reminders_of. cbn [flat_map fst snd].
    fold (reminders_of docs).
    rewrite first_set_fault_app.
    destruct (first_set_fault (faults w) (map _ _)) as [e|].
    + by exists 3%nat.
    + destruct (IH (counted.1 ++ map (reminder_notification doc id) (or_empty (registrations doc)),
                    (counted.2 + length (or_empty (registrations doc)))%nat) (alloc 3 w))
        as [k Hk].
      exists (k + 3)%nat. rewrite Hk. cbn [faults alloc fst snd].
      rewrite alloc_alloc.
      destruct (first_set_fault _ _); [done|].
      by rewrite <- app_assoc, length_app, length_map, Nat.add_assoc.
Qed.

Lemma sendEventReminders_run clock_now clock_date_now w :
  ∃ w', sendEventReminders clock_now clock_date_now w = (Returned tt, w') ∧
    stores w' =
      match get_fault (faults w) with
      | Some _ => stores w
      | None =>
          match reminders_of (upcoming clock_now clock_date_now w) with
          | [] => stores w
          | batch => fan_out_effect (faults w) batch w
          end
      end ∧
    logged_last "Error in sendEventReminders:"
      (sweep_failure (faults w) (reminders_of (upcoming clock_now clock_date_now w))) w'.
Proof.
  unfold sendEventReminders, stores, fan_out_effect, upcoming, sweep_failure,
    failure, logged_last.
  unfold try_catch, bind at 1. unfold console_log at 1.
  unfold bind at 1. unfold get_events at 1. cbn [faults events].
  destruct (get_fault (faults w)); [finish|].
  match goal with |- context [run_query ?q (events w)] =>
    remember (run_query q (events w)) as docs eqn:Hq end.
  clear Hq.
  destruct docs as [|d docs']; [finish|].
  change (length (d :: docs') =? 0)%nat with false. cbv iota.
  generalize (d :: docs'). clear d docs'. intros docs.
  unfold bind at 1.
  match goal with |- context [for_of docs ?c ?b ?w'] =>
    destruct (for_of_reminders docs c w') as [k Hk]; cbv zeta in Hk; cbv zeta;
    rewrite Hk end.
  cbn [faults fst snd db_batch]. rewrite app_nil_l, Nat.add_0_l.
  destruct (first_set_fault (faults w) (reminders_of docs)) as [e|] eqn:Hf.
  - destruct (reminders_of docs) as [|n l] eqn:Hr.
    + by unfold first_set_fault in Hf.
    + rewrite Hf. finish.
  - destruct (reminders_of docs) as [|n batch]; [finish|].
    rewrite Hf. unfold bind, batch_commit, console_log. simpl.
    destruct (commit_fault _ _); finish.
Qed.

(** ** One commit per invocation *)

Lemma stores_unchanged w w' :
  stores w' = stores w -> submitted w w' = [] ∧ written w w' = [].
Proof.
  unfold stores, submitted, written. intros [= -> ->]. by rewrite !drop_all.
Qed.

Lemma stores_fan_out F batch w w' :
  stores w' = fan_out_effect F batch w ->
  submitted w w' = match first_set_fault F batch with Some _ => [] | None => [batch] end ∧
  written w w' = match failure F batch with Some _ => [] | None => batch end.
Proof.
  unfold fan_out_effect, failure. destruct (first_set_fault F batch).
  - apply stores_unchanged.
  - unfold stores, submitted, written. intros [= -> ->].
    rewrite drop_app_length. split; [done|].
    destruct (commit_fault F batch); [apply drop_all | apply drop_app_length].
Qed.

Lemma fan_out_one_commit F batch w w' :
  stores w' = fan_out_effect F batch w -> one_commit batch w w'.
Proof.
  intros [Hs Hw]%stores_fan_out. unfold one_commit, failure in *.
  destruct (first_set_fault F batch); [by left|].
  right. split; [done|]. destruct (commit_fault F batch); [by left|by right].
Qed.

Lemma one_commit_submitted batch w w' b :
  one_commit batch w w' -> b ∈ submitted w w' -> b = batch.
Proof.
  intros [[-> _]|[-> _]] Hb.
  - by apply elem_of_nil in Hb.
  - by apply list_elem_of_singleton in Hb.
Qed.

Lemma onEventCreated_one_commit snap id w :
  one_commit (map (created_notification snap id) (recipients_created snap w)) w
    (onEventCreated snap id w).2.
Proof.
  destruct (onEventCreated_run snap id w) as (w' & -> & Hs & _). cbn [snd].
  destruct (get_fault (faults w)).
  - left. by apply stores_unchanged.
  - by eapply fan_out_one_commit.
Qed.

Lemma onEventUpdated_one_commit before after id w :
  one_commit (map (updated_notification after id) (or_empty (registrations after))) w
    (onEventUpdated before after id w).2.
Proof.
  destruct (onEventUpdated_run before after id w) as (w' & -> & Hs & _). cbn [snd].
  destruct (or_empty (registrations after)) eqn:E.
  - left. by apply stores_unchanged.
  - by eapply fan_out_one_commit.
Qed.

Lemma onEventDeleted_one_commit snap id w :
  one_commit (map (cancelled_notification snap) (or_empty (registrations snap))) w
    (onEventDeleted snap id w).2.
Proof.
  destruct (onEventDeleted_run snap id w) as (w' & -> & Hs & _). cbn [snd].
  destruct (or_empty (registrations snap)) eqn:E.
  - left. by apply stores_unchanged.
  - by eapply fan_out_one_commit.
Qed.

Lemma sendEventReminders_one_commit clock_now clock_date_now w :
  one_commit (reminders_of (upcoming clock_now clock_date_now w)) w
    (sendEventReminders clock_now clock_date_now w).2.
Proof.
  destruct (sendEventReminders_run clock_now clock_date_now w) as (w' & -> & Hs & _).
  cbn [snd]. destruct (get_fault (faults w)).
  - left. by apply stores_unchanged.
  - destruct (reminders_of _) eqn:E.
    + left. by apply stores_unchanged.
    + by eapply fan_out_one_commit.
Qed.


(** ** Recipients and the creator *)


(** ** The shape of the records *)

(** C5 fails as stated: the cancellation records carry [eventId] and [link],
    set to [null]. *)
Lemma cancelled_fields_are_null :
  map (fun n => (eventId n, is_absent (eventId n), link n, is_absent (link n)))
      (written campus (onEventDeleted fair_with_creator "e1" campus).2)
    = [(Null, false, Null, false); (Null, false, Null, false)].
Proof. vm_compute. done. Qed.

(** C5, amended: every record of the delete branch has [eventId] and [link]
    present and [null]; every record of the create and update branches has
    the event id and the deep link [/events/<id>]. *)
Theorem notification_event_fields snap before after id w :
  (∀ batch n, batch ∈ submitted w (onEventDeleted snap id w).2 → n ∈ batch →
     eventId n = Null ∧ link n = Null) ∧
  (∀ batch n, batch ∈ submitted w (onEventCreated snap id w).2 → n ∈ batch →
     eventId n = Val id ∧ link n = Val ("/events/" +:+ id)) ∧
  (∀ batch n, batch ∈ submitted w (onEventUpdated before after id w).2 → n ∈ batch →
     eventId n = Val id ∧ link n = Val ("/events/" +:+ id)).
Proof.
  split; [|split]; intros batch n Hb Hn.
  1: rewrite (one_commit_submitted _ _ _ _ (onEventDeleted_one_commit snap id w) Hb) in Hn.
  2: rewrite (one_commit_submitted _ _ _ _ (onEventCreated_one_commit snap id w) Hb) in Hn.
  3: rewrite (one_commit_submitted _ _ _ _ (onEventUpdated_one_commit before after id w) Hb)
       in Hn.
  all: by apply list_elem_of_fmap in Hn as (r & -> & Hr).
Qed.

(** ** Batches are not split *)

(** C4 fails as stated: 1200 recipients are handed to [commit] in one batch
    of 1200 operations. *)
Lemma crowd_of_1200_is_one_commit :
  map length (submitted (world_of (crowd 1200) ∅)
                (onEventCreated fair_before "e1" (world_of (crowd 1200) ∅)).2)
    = [1200%nat].
Proof. vm_compute. done. Qed.

Lemma first_set_fault_none F batch :
  (∀ d, set_fault F d = None) → first_set_fault F batch = None.
Proof.
  intros H. induction batch as [|d batch IH]; [done|].
  unfold first_set_fault; fold first_set_fault. by rewrite H.
Qed.

(** C4, amended: whatever the number of recipients, the create trigger and
    the sweep put all their operations in one batch and commit it once; the
    commit writes all of the batch, or nothing when it is rejected. *)
Theorem fan_out_single_commit snap id clock_now clock_date_now w :
  get_fault (faults w) = None →
  (∀ d, set_fault (faults w) d = None) →
  let created := map (created_notification snap id) (recipients_created snap w) in
  let reminders := reminders_of (upcoming clock_now clock_date_now w) in
  submitted w (onEventCreated snap id w).2 = [created] ∧
  written w (onEventCreated snap id w).2 =
    match commit_fault (faults w) created with Some _ => [] | None => created end ∧
  submitted w (sendEventReminders clock_now clock_date_now w).2 =
    match reminders with [] => [] | _ => [reminders] end ∧
  written w (sendEventReminders clock_now clock_date_now w).2 =
    match commit_fault (faults w) reminders with Some _ => [] | None => reminders end.
Proof.
  intros Hget Hset created reminders.
  destruct (onEventCreated_run snap id w) as (w1 & -> & Hs1 & _).
  destruct (sendEventReminders_run clock_now clock_date_now w) as (w2 & -> & Hs2 & _).
  cbn [snd]. rewrite Hget in Hs1, Hs2.
  apply stores_fan_out in Hs1 as [Hc1 Hw1]. fold created in Hc1, Hw1.
  unfold failure in Hw1. rewrite first_set_fault_none in Hc1, Hw1 by done.
  split; [done|]. split; [done|].
  fold reminders in Hs2. destruct reminders as [|n l] eqn:E.
  - apply stores_unchanged in Hs2 as [-> ->]. split; [done|].
    by destruct (commit_fault (faults w) []).
  - apply stores_fan_out in Hs2 as [Hc2 Hw2].
    unfold failure in Hw2. rewrite first_set_fault_none in Hc2, Hw2 by done. done.
Qed.

Lemma fan_out_single_commit_witness :
  get_fault (faults campus) = None ∧
  (∀ d, set_fault (faults campus) d = None) ∧
  submitted campus (onEventCreated fair_before "e1" campus).2
    = [map (created_notification fair_before "e1") (recipients_created fair_before campus)].
Proof.
  split; [reflexivity|]. split; [reflexivity|].
  apply (fan_out_single_commit fair_before "e1" 0 0 campus); reflexivity.
Defined.

(** ** Failures stay inside the handlers *)

(** C9: whatever the platform refuses, each of the three triggers and the
    sweep returns normally, and when the query, the construction of the
    batch or the commit failed, the last thing it did was to log that
    error. *)
Theorem handlers_never_throw snap before after id clock_now clock_date_now w :
  (∃ w', onEventCreated snap id w = (Returned tt, w') ∧
     logged_last "Error in onEventCreated:"
       match get_fault (faults w) with
       | Some e => Some e
       | None =>
           failure (faults w)
             (map (created_notification snap id) (recipients_created snap w))
       end w') ∧
  (∃ w', onEventUpdated before after id w = (Returned tt, w') ∧
     logged_last "Error in onEventUpdated:"
       match or_empty (registrations after) with
       | [] => None
       | regs => failure (faults w) (map (updated_notification after id) regs)
       end w') ∧
  (∃ w', onEventDeleted snap id w = (Returned tt, w') ∧
     logged_last "Error in onEventDeleted:"
       match or_empty (registrations snap) with
       | [] => None
       | regs => failure (faults w) (map (cancelled_notification snap) regs)
       end w') ∧
  (∃ w', sendEventReminders clock_now clock_date_now w = (Returned tt, w') ∧
     logged_last "Error in sendEventReminders:"
       (sweep_failure (faults w) (reminders_of (upcoming clock_now clock_date_now w))) w').
Proof.
  destruct (onEventCreated_run snap id w) as (w1 & H1 & _ & L1).
  destruct (onEventUpdated_run before after id w) as (w2 & H2 & _ & L2).
  destruct (onEventDeleted_run snap id w) as (w3 & H3 & _ & L3).
  destruct (sendEventReminders_run clock_now clock_date_now w) as (w4 & H4 & _ & L4).
  split; [by exists w1|]. split; [by exists w2|]. split; [by exists w3|by exists w4].
Qed.

(** ** Significant changes *)

(** The test of the update trigger holds for every pair of snapshots: the
    two [date] fields are two objects. *)
Lemma onEventUpdated_always_significant (before after : EventDoc) (w : World) :
  ∃ w1 w2 b a,
    snapshot_data before w = (Returned b, w1) ∧
    snapshot_data after w1 = (Returned a, w2) ∧
    criticalFieldsChanged b a = true.
Proof.
  do 4 eexists. split; [reflexivity|]. split; [reflexivity|].
  apply criticalFieldsChanged_decoded.
Qed.

(** C2 fails on the code: an update that changes the description only, with
    title, date and location as they were, writes an [event_updated]
    notification for the registered student. *)
Theorem description_only_update_notifies :
  title fair_before = title fair_after ∧
  date fair_before = date fair_after ∧
  location fair_before = location fair_after ∧
  written campus (onEventUpdated fair_before fair_after "e1" campus).2 =
    [updated_notification fair_after "e1" (registration_of "alice")].
Proof. vm_compute. done. Qed.

(** ** deleteUser *)

(** C6 fails on the code: for a signed-in caller the three refusals reach
    the caller with the code [internal]; only the missing identity is
    reported as thrown. *)
Theorem deleteUser_refusals_surface_internal :
  (deleteUser "carol" None campus).1
    = Thrown (HttpsError unauthenticated "Must be authenticated") ∧
  (deleteUser "admin-uid" (Some "admin-uid") campus).1
    = Thrown (HttpsError internal "Cannot delete your own account") ∧
  (deleteUser "alice" (Some "lecturer-uid") campus).1
    = Thrown (HttpsError internal "Only admins can delete users") ∧
  (deleteUser "carol" (Some "admin-uid") campus).1
    = Thrown (HttpsError internal "Cannot delete users from other institutions").
Proof. vm_compute. done. Qed.

(** Every error a signed-in caller of [deleteUser] receives has the code
    [internal]. *)
Lemma deleteUser_signed_in_internal data_userId auth_uid w e w' :
  deleteUser data_userId (Some auth_uid) w = (Thrown e, w') →
  ∃ m, e = HttpsError internal m.
Proof.
  unfold deleteUser, try_catch.
  match goal with |- context [match ?body w with _ => _ end] =>
    destruct (body w) as [[r|e0] w0] end; [done|].
  unfold bind, console_error, throw. intros [= <- _]. by eexists.
Qed.

(** ** Audience resolution *)

Lemma run_query_spec {Doc} (q : Query Doc) (c : gmap string Doc) id doc :
  (id, doc) ∈ run_query q c ↔ c !! id = Some doc ∧ q doc = true.
Proof.
  unfold run_query. rewrite list_elem_of_filter, elem_of_map_to_list. cbn [snd]. tauto.
Qed.

Lemma run_query_NoDup {Doc} (q : Query Doc) (c : gmap string Doc) :
  NoDup (run_query q c).
Proof. apply NoDup_filter, NoDup_map_to_list. Qed.

Lemma truthy_Some v : truthy (Some v) = true ↔ v ≠ EmptyString.
Proof.
  unfold truthy. destruct (String.eqb_spec v EmptyString); cbn; split; congruence.
Qed.

Lemma audience_query_spec i ta doc :
  audience_query i ta doc = true ↔
  user_role doc = STUDENT ∧ user_institution doc = i ∧ audience_restriction ta doc.
Proof.
  unfold audience_query, audience_restriction, where_department, where_class,
    where_role, where_institution, collection, value_of.
  destruct ta as [ty [v|]]; simpl; destruct ty; simpl;
    try destruct (String.eqb_spec v EmptyString); simpl;
    rewrite ?andb_true_iff, ?bool_decide_eq_true; intuition congruence.
Qed.

Lemma getTargetAudience_run i ta w :
  getTargetAudience i ta w =
  match get_fault (faults w) with
  | Some e => (Thrown e, w)
  | None => (Returned (map audience_user (run_query (audience_query i ta) (users w))), w)
  end.
Proof.
  unfold getTargetAudience, bind, get_users, ret. by destruct (get_fault (faults w)).
Qed.

(** C3 fails as stated: asked for the department with the empty name, the
    resolver returns a student of the Physics department. *)
Lemma empty_department_resolves_everyone :
  ∃ l u,
    (getTargetAudience "State University" (department_of EmptyString) campus).1
      = Returned l ∧
    u ∈ l ∧
    ¬ spec_restriction (department_of EmptyString) (user_data u).
Proof.
  eexists. exists (audience_user ("bob", student "State University" "Physics" "PH201")).
  split; [vm_compute; reflexivity|]. split.
  - apply list_elem_of_further, list_elem_of_here.
  - vm_compute. discriminate.
Qed.

Lemma audience_user_fields (snapshot : list (string * UserDoc)) :
  map user_data (map audience_user snapshot) = map snd snapshot ∧
  map uid (map audience_user snapshot)
    = map (fun doc => match user_uid doc.2 with Some u => u | None => doc.1 end) snapshot.
Proof.
  induction snapshot as [|[id doc] l [IH1 IH2]]; [done|].
  cbn [map]. rewrite IH1, IH2. unfold audience_user. cbn [user_data uid fst snd].
  by destruct (user_uid doc).
Qed.

(** C3, amended: when the query is answered, the resolver returns, without
    changing anything, one user for each document of [users] with role
    student and the given institution that passes the restriction of the
    descriptor (department [v] for [Department(v)] and class [v] for
    [Class(v)] when [v] is a non-empty string, none otherwise), and for no
    other document.  The user returned for a document carries the data of
    that document and, as [uid], the [uid] field of the data when there is
    one and the id of the document otherwise; so every user returned is a
    student of the institution. *)
Theorem getTargetAudience_resolves i ta w :
  get_fault (faults w) = None →
  ∃ audience snapshot,
    getTargetAudience i ta w = (Returned audience, w) ∧
    NoDup snapshot ∧
    (∀ id doc,
       (id, doc) ∈ snapshot ↔
       users w !! id = Some doc ∧ user_role doc = STUDENT ∧ user_institution doc = i ∧
       audience_restriction ta doc) ∧
    map user_data audience = map snd snapshot ∧
    map uid audience
      = map (fun doc => match user_uid doc.2 with Some u => u | None => doc.1 end)
          snapshot ∧
    ∀ user, user ∈ audience →
      user_role (user_data user) = STUDENT ∧ user_institution (user_data user) = i.
Proof.
  intros Hget.
  exists (map audience_user (run_query (audience_query i ta) (users w))),
         (run_query (audience_query i ta) (users w)).
  rewrite getTargetAudience_run, Hget.
  destruct (audience_user_fields (run_query (audience_query i ta) (users w))) as [Hd Hu].
  split; [done|]. split; [apply run_query_NoDup|].
  split; [intros id doc; by rewrite run_query_spec, audience_query_spec|].
  split; [done|]. split; [done|].
  intros user ([id doc] & -> & Hin)%list_elem_of_fmap.
  apply run_query_spec in Hin as [_ Hq].
  apply audience_query_spec in Hq as (Hr & Hi & _). done.
Qed.

Lemma getTargetAudience_resolves_witness :
  get_fault (faults campus) = None ∧
  ∃ audience snapshot,
    getTargetAudience "State University" (department_of "Physics") campus
      = (Returned audience, campus) ∧
    NoDup snapshot ∧
    (∀ id doc,
       (id, doc) ∈ snapshot ↔
       users campus !! id = Some doc ∧ user_role doc = STUDENT ∧
       user_institution doc = "State University" ∧
       audience_restriction (department_of "Physics") doc) ∧
    map user_data audience = map snd snapshot ∧
    map uid audience
      = map (fun doc => match user_uid doc.2 with Some u => u | None => doc.1 end)
          snapshot ∧
    ∀ user, user ∈ audience →
      user_role (user_data user) = STUDENT ∧
      user_institution (user_data user) = "State University".
Proof.
  split; [reflexivity|].
  apply (getTargetAudience_resolves "State University" (department_of "Physics") campus).
  reflexivity.
Defined.

(** The resolver on the sample campus: the Physics department is Bob, under
    the id of his document. *)
Example getTargetAudience_physics :
  (getTargetAudience "State University" (department_of "Physics") campus).1
  = Returned [ {| uid := "bob";
                  user_data := student "State University" "Physics" "PH201" |} ].
Proof. vm_compute. reflexivity. Qed.

(** C10: a [department] or [class] descriptor whose value is missing or
    empty resolves as [general] does: the call returns, and what it returns
    is one user for each student document of the institution, whatever its
    department and class, and for no other document, each with the data of
    its document and its uid. *)
Theorem getTargetAudience_falls_back i ta w :
  ta_type ta = DEPARTMENT ∨ ta_type ta = CLASS →
  ta_value ta = None ∨ ta_value ta = Some EmptyString →
  get_fault (faults w) = None →
  ∃ audience snapshot,
    getTargetAudience i ta w = (Returned audience, w) ∧
    getTargetAudience i {| ta_type := GENERAL; ta_value := ta_value ta |} w
      = (Returned audience, w) ∧
    NoDup snapshot ∧
    (∀ id doc,
       (id, doc) ∈ snapshot ↔
       users w !! id = Some doc ∧ user_role doc = STUDENT ∧ user_institution doc = i) ∧
    map user_data audience = map snd snapshot ∧
    map uid audience
      = map (fun doc => match user_uid doc.2 with Some u => u | None => doc.1 end)
          snapshot.
Proof.
  intros Hty Hval Hget.
  exists (map audience_user (run_query (audience_query i ta) (users w))),
         (run_query (audience_query i ta) (users w)).
  destruct (audience_user_fields (run_query (audience_query i ta) (users w))) as [Hd Hu].
  split; [by rewrite getTargetAudience_run, Hget|]. split.
  - rewrite getTargetAudience_run, Hget. do 3 f_equal.
    unfold audience_query. cbn [ta_type ta_value].
    destruct Hval as [-> | ->]; cbn [truthy String.eqb negb]; by rewrite !andb_false_r.
  - split; [apply run_query_NoDup|]. split; [|done].
    intros id doc. rewrite run_query_spec, audience_query_spec.
    unfold audience_restriction.
    destruct Hval as [-> | ->]; destruct (ta_type ta); intuition congruence.
Qed.

Lemma getTargetAudience_falls_back_witness :
  (ta_type department_missing = DEPARTMENT ∨ ta_type department_missing = CLASS) ∧
  (ta_value department_missing = None ∨ ta_value department_missing = Some EmptyString) ∧
  get_fault (faults campus) = None ∧
  ∃ audience snapshot,
    getTargetAudience "State University" department_missing campus
      = (Returned audience, campus) ∧
    getTargetAudience "State University"
      {| ta_type := GENERAL; ta_value := ta_value department_missing |} campus
      = (Returned audience, campus) ∧
    NoDup snapshot ∧
    (∀ id doc,
       (id, doc) ∈ snapshot ↔
       users campus !! id = Some doc ∧ user_role doc = STUDENT ∧
       user_institution doc = "State University") ∧
    map user_data audience = map snd snapshot ∧
    map uid audience
      = map (fun doc => match user_uid doc.2 with Some u => u | None => doc.1 end)
          snapshot.
Proof.
  split; [left; reflexivity|]. split; [left; reflexivity|]. split; [reflexivity|].
  apply (getTargetAudience_falls_back "State University" department_missing campus).
  - left; reflexivity.
  - left; reflexivity.
  - reflexivity.
Defined.

(** The fallback on the sample campus: with the value missing, both
    students of the institution are returned and nobody else. *)
Example getTargetAudience_department_missing :
  (getTargetAudience "State University" department_missing campus).1
  = Returned [ {| uid := "alice";
                  user_data := student "State University" "Computer Science" "CS101" |};
               {| uid := "bob";
                  user_data := student "State University" "Physics" "PH201" |} ].
Proof. vm_compute. reflexivity. Qed.

(** ** The reminder sweep *)

Lemma ts_leb_nanos a b :
  ts_valid a → ts_valid b → (ts_leb a b = true ↔ ts_nanos a <= ts_nanos b).
Proof.
  unfold ts_valid, ts_leb, ts_nanos. intros Ha Hb.
  rewrite orb_true_iff, andb_true_iff, Z.ltb_lt, Z.eqb_eq, Z.leb_le. lia.
Qed.

Lemma Timestamp_fromMillis_valid ms : ts_valid (Timestamp_fromMillis ms).
Proof.
  unfold ts_valid, Timestamp_fromMillis. cbn [nanoseconds].
  pose proof (Z.mod_pos_bound ms 1000 ltac:(lia)) as Hm.
  rewrite Z.mod_eq in Hm by lia. lia.
Qed.

Lemma Timestamp_fromMillis_nanos ms : ts_nanos (Timestamp_fromMillis ms) = ms * 1000000.
Proof. unfold ts_nanos, Timestamp_fromMillis. cbn [seconds nanoseconds]. lia. Qed.

Lemma in_window_nanos now d :
  ts_valid d →
  (in_window now d ↔
   now * 1000000 <= ts_nanos d <= (now + 24 * 60 * 60 * 1000) * 1000000).
Proof.
  intros Hd. unfold in_window.
  rewrite !ts_leb_nanos, !Timestamp_fromMillis_nanos
    by (done || apply Timestamp_fromMillis_valid).
  done.
Qed.

Lemma upcoming_spec now w id doc :
  (id, doc) ∈ upcoming now now w ↔ events w !! id = Some doc ∧ in_window now (date doc).
Proof.
  unfold upcoming, in_window. rewrite run_query_spec.
  unfold where_date_le, where_date_ge, collection. cbn [andb].
  rewrite andb_true_iff. tauto.
Qed.

Lemma upcoming_nanos clock_now clock_date_now w id doc :
  ts_valid (date doc) →
  ((id, doc) ∈ upcoming clock_now clock_date_now w ↔
   events w !! id = Some doc ∧
   clock_now * 1000000 <= ts_nanos (date doc)
     <= (clock_date_now + 24 * 60 * 60 * 1000) * 1000000).
Proof.
  intros Hd. unfold upcoming. rewrite run_query_spec.
  unfold where_date_le, where_date_ge, collection. cbn [andb].
  rewrite andb_true_iff, !ts_leb_nanos, !Timestamp_fromMillis_nanos
    by (done || apply Timestamp_fromMillis_valid).
  tauto.
Qed.

Lemma reminders_of_fields docs :
  reminders_of docs
  = flat_map (fun doc : string * EventDoc =>
                map (fun r =>
                       {| userId := studentId r;
                          type_ := event_reminder;
                          message := "Reminder: " +:+ dquote +:+ title doc.2 +:+ dquote
                                       +:+ " is happening soon!";
                          eventId := Val doc.1;
                          link := Val ("/events/" +:+ doc.1);
                          isRead := false;
                          n_createdAt := serverTimestamp |})
                  (or_empty (registrations doc.2))) docs.
Proof.
  unfold reminders_of. induction docs as [|doc docs IH]; [done|].
  cbn [flat_map]. rewrite <- IH. f_equal.
Qed.

(** C8 fails as stated: the sweep reads the clock twice.  With the readings
    0 and 1 it reminds the registrants of an event dated 0 and of an event
    dated 24 hours and a millisecond later, and no window of 24 hours holds
    both dates. *)
Lemma reminder_window_spans_two_readings :
  map (fun n => (userId n, type_ n, eventId n))
    (written (world_of campus_users skewed_events)
       (sendEventReminders 0 1 (world_of campus_users skewed_events)).2)
  = [("alice", event_reminder, Val "early"); ("bob", event_reminder, Val "late")] ∧
  ∀ now : Z,
    ¬ (now <= 0 <= now + 24 * 60 * 60 * 1000 ∧
       now <= 24 * 60 * 60 * 1000 + 1 <= now + 24 * 60 * 60 * 1000).
Proof. split; [vm_compute; reflexivity|lia]. Qed.

(** C8, amended: for a run of the sweep whose readings of the clock are
    [clock_now] (for the lower bound) and [clock_date_now] (for the upper
    bound), both within the range of a timestamp, on a platform that
    refuses nothing: the run returns normally and writes exactly one
    unread [event_reminder] record per entry of the registrations of each
    event dated from [clock_now] to [clock_date_now + 24h], both ends
    included, for the [studentId] of the entry, with the title, the id and
    the link of the event, and no other record; when no event is in the
    window it commits and writes nothing. *)
Theorem reminder_sweep clock_now clock_date_now w :
  faults w = no_faults →
  (∀ id doc, events w !! id = Some doc → ts_valid (date doc)) →
  timestamp_range clock_now →
  timestamp_range (clock_date_now + 24 * 60 * 60 * 1000) →
  ∃ docs w',
    sendEventReminders clock_now clock_date_now w = (Returned tt, w') ∧
    NoDup docs ∧
    (∀ id doc,
       (id, doc) ∈ docs ↔
       events w !! id = Some doc ∧
       clock_now * 1000000 <= ts_nanos (date doc)
         <= (clock_date_now + 24 * 60 * 60 * 1000) * 1000000) ∧
    written w w'
      = flat_map (fun doc : string * EventDoc =>
                    map (fun r =>
                           {| userId := studentId r;
                              type_ := event_reminder;
                              message := "Reminder: " +:+ dquote +:+ title doc.2 +:+ dquote
                                           +:+ " is happening soon!";
                              eventId := Val doc.1;
                              link := Val ("/events/" +:+ doc.1);
                              isRead := false;
                              n_createdAt := serverTimestamp |})
                      (or_empty (registrations doc.2))) docs ∧
    (docs = [] → submitted w w' = [] ∧ written w w' = []).
Proof.
  intros HF Hvalid _ _. exists (upcoming clock_now clock_date_now w).
  destruct (sendEventReminders_run clock_now clock_date_now w) as (w' & Hrun & Hs & _).
  exists w'. split; [done|]. split; [apply run_query_NoDup|]. split.
  { intros id doc. split.
    - intros Hin. assert (Hev : events w !! id = Some doc)
        by (unfold upcoming in Hin; by apply run_query_spec in Hin as [? _]).
      by apply upcoming_nanos; [eapply Hvalid|].
    - intros [Hev Hw]. by apply upcoming_nanos; [eapply Hvalid|]. }
  rewrite HF in Hs. cbn [get_fault no_faults] in Hs.
  assert (Hw : submitted w w' = match reminders_of (upcoming clock_now clock_date_now w) with
                                | [] => [] | b => [b] end ∧
               written w w' = reminders_of (upcoming clock_now clock_date_now w)).
  { destruct (reminders_of (upcoming clock_now clock_date_now w)) as [|n l] eqn:E.
    - by apply stores_unchanged in Hs.
    - apply stores_fan_out in Hs as [Hc Hw]. unfold failure in Hw.
      rewrite first_set_fault_none in Hc, Hw by done. done. }
  destruct Hw as [Hsub Hwr]. split.
  - rewrite Hwr. apply reminders_of_fields.
  - intros Hd. rewrite Hsub, Hwr, Hd. done.
Qed.

Lemma reminder_sweep_witness :
  faults (world_of campus_users skewed_events) = no_faults ∧
  (∀ id doc, events (world_of campus_users skewed_events) !! id = Some doc →
     ts_valid (date doc)) ∧
  timestamp_range 0 ∧
  timestamp_range (1 + 24 * 60 * 60 * 1000) ∧
  ∃ docs w',
    sendEventReminders 0 1 (world_of campus_users skewed_events) = (Returned tt, w') ∧
    NoDup docs ∧
    (∀ id doc,
       (id, doc) ∈ docs ↔
       events (world_of campus_users skewed_events) !! id = Some doc ∧
       0 * 1000000 <= ts_nanos (date doc) <= (1 + 24 * 60 * 60 * 1000) * 1000000) ∧
    written (world_of campus_users skewed_events) w'
      = flat_map (fun doc : string * EventDoc =>
                    map (fun r =>
                           {| userId := studentId r;
                              type_ := event_reminder;
                              message := "Reminder: " +:+ dquote +:+ title doc.2 +:+ dquote
                                           +:+ " is happening soon!";
                              eventId := Val doc.1;
                              link := Val ("/events/" +:+ doc.1);
                              isRead := false;
                              n_createdAt := serverTimestamp |})
                      (or_empty (registrations doc.2))) docs ∧
    (docs = [] → submitted (world_of campus_users skewed_events) w' = [] ∧
                 written (world_of campus_users skewed_events) w' = []).
Proof.
  assert (Hvalid : ∀ id doc,
            events (world_of campus_users skewed_events) !! id = Some doc →
            ts_valid (date doc)).
  { intros id doc Hev. unfold world_of, skewed_events in Hev. cbn [events] in Hev.
    apply elem_of_list_to_map_2 in Hev.
    apply elem_of_cons in Hev as [[= -> ->]|Hev]; [apply Timestamp_fromMillis_valid|].
    apply elem_of_cons in Hev as [[= -> ->]|Hev]; [apply Timestamp_fromMillis_valid|].
    by apply elem_of_nil in Hev. }
  assert (H0 : timestamp_range 0) by (unfold timestamp_range; lia).
  assert (H1 : timestamp_range (1 + 24 * 60 * 60 * 1000))
    by (unfold timestamp_range; lia).
  split; [reflexivity|]. split; [exact Hvalid|]. split; [exact H0|]. split; [exact H1|].
  apply (reminder_sweep 0 1 (world_of campus_users skewed_events) eq_refl Hvalid H0 H1).
Defined.

(** The scenario of the specification: run at [D] with an event at
    [D + 12h] holding two registrations and one at [D + 48h], the sweep
    writes two reminders, both for the first event. *)
Example reminder_sweep_scenario :
  map (fun n => (userId n, type_ n, eventId n))
    (written (world_of campus_users sweep_events)
       (sendEventReminders 0 0 (world_of campus_users sweep_events)).2)
  = [("alice", event_reminder, Val "soon"); ("bob", event_reminder, Val "soon")].
Proof. vm_compute. done. Qed.

End FunctionsFacts.

(** * Properties of registration and feedback *)

Module ClientFacts.
Import Client ClientSamples.

Lemma optional_some_spec {A} (arr : option (list A)) (pred : A → bool) :
  optional_some arr pred = true ↔ ∃ x, x ∈ or_empty arr ∧ pred x = true.
Proof.
  destruct arr as [l|]; cbn.
  - rewrite existsb_exists. setoid_rewrite list_elem_of_In. done.
  - split; [done|]. by intros (x & Hx%elem_of_nil & _).
Qed.

Lemma already_registered (event : EventDoc) id :
  id ∈ map studentId (or_empty (registrations event)) →
  optional_some (registrations event) (fun r => String.eqb (studentId r) id) = true.
Proof.
  intros (r & -> & Hr)%list_elem_of_fmap. apply optional_some_spec.
  exists r. split; [done|]. apply String.eqb_refl.
Qed.

Lemma already_submitted (event : EventDoc) id :
  id ∈ map fb_studentId (or_empty (feedback event)) →
  optional_some (feedback event) (fun f => String.eqb (fb_studentId f) id) = true.
Proof.
  intros (f & -> & Hf)%list_elem_of_fmap. apply optional_some_spec.
  exists f. split; [done|]. apply String.eqb_refl.
Qed.

(** C7: for a signed-in user and an event that [getDoc] returns, registering
    a [studentId] that is among the event's registrations fails with
    [ALREADY_EXISTS], and so does submitting feedback for a [studentId] that
    is among its feedback; the events collection is as it was. *)
Theorem duplicates_are_rejected w eventId event :
  currentUser w ≠ None →
  getDoc_fault w = None →
  events w !! eventId = Some event →
  (∀ registration,
     reg_studentId registration ∈ map studentId (or_empty (registrations event)) →
     ∃ w', registerForEvent eventId registration w =
             (Thrown (AppError ALREADY_EXISTS "Already registered for this event" 409), w') ∧
           events w' = events w) ∧
  (∀ fb,
     in_studentId fb ∈ map fb_studentId (or_empty (feedback event)) →
     ∃ w', submitFeedback eventId fb w =
             (Thrown (AppError ALREADY_EXISTS "Feedback already submitted" 409), w') ∧
           events w' = events w).
Proof.
  intros Hauth Hget Hev. split.
  - intros registration Hin%already_registered.
    unfold registerForEvent, try_catch, bind, checkAuth, getDoc.
    destruct (currentUser w) as [u|]; [|done].
    rewrite Hget, Hev, Hin. by eexists.
  - intros fb Hin%already_submitted.
    unfold submitFeedback, try_catch, bind, checkAuth, getDoc.
    destruct (currentUser w) as [u|]; [|done].
    rewrite Hget, Hev, Hin. by eexists.
Qed.

Lemma duplicates_are_rejected_witness :
  currentUser signed_in ≠ None ∧
  getDoc_fault signed_in = None ∧
  events signed_in !! "e1" = Some attended ∧
  (∃ w', registerForEvent "e1" alice_registration signed_in =
           (Thrown (AppError ALREADY_EXISTS "Already registered for this event" 409), w') ∧
         events w' = events signed_in) ∧
  (∃ w', submitFeedback "e1" alice_feedback signed_in =
           (Thrown (AppError ALREADY_EXISTS "Feedback already submitted" 409), w') ∧
         events w' = events signed_in).
Proof.
  assert (H1 : currentUser signed_in ≠ None) by discriminate.
  assert (H2 : getDoc_fault signed_in = None) by reflexivity.
  assert (H3 : events signed_in !! "e1" = Some attended) by (vm_compute; reflexivity).
  destruct (duplicates_are_rejected signed_in "e1" attended H1 H2 H3) as [Hr Hf].
  split; [exact H1|]. split; [exact H2|]. split; [exact H3|]. split.
  - apply Hr. vm_compute. apply list_elem_of_here.
  - apply Hf. vm_compute. apply list_elem_of_here.
Defined.

End ClientFacts.

(** * Further properties of the triggers and the sweep *)

Module LifecycleFacts.
Import Functions Samples Provisioning FunctionsFacts.

Local Arguments for_of : simpl never.
Local Arguments decode : simpl never.

(** ** What the handlers leave untouched *)

Lemma keeps_ret {A} (a : A) : keeps_collections (ret a : M A).
Proof. by intros w. Qed.

Lemma keeps_bind {A B} (m : M A) (k : A -> M B) :
  keeps_collections m → (∀ a, keeps_collections (k a)) → keeps_collections (bind m k).
Proof.
  intros Hm Hk w. unfold bind. specialize (Hm w).
  destruct (m w) as [[a|e] w1]; cbn [snd] in *; [|done].
  destruct (Hk a w1) as (-> & -> & -> & ->). done.
Qed.

Lemma keeps_try_catch {A} (body : M A) (handler : Error -> M A) :
  keeps_collections body → (∀ e, keeps_collections (handler e)) →
  keeps_collections (try_catch body handler).
Proof.
  intros Hm Hk w. unfold try_catch. specialize (Hm w).
  destruct (body w) as [[a|e] w1]; cbn [snd] in *; [done|].
  destruct (Hk e w1) as (-> & -> & -> & ->). done.
Qed.

Lemma keeps_for_of {A St} (l : list A) (s : St) (body : St -> A -> M St) :
  (∀ s x, keeps_collections (body s x)) → keeps_collections (for_of l s body).
Proof.
  intros Hb. revert s. induction l as [|x l IH]; intros s.
  - apply keeps_ret.
  - unfold for_of; fold (@for_of World A St). apply keeps_bind; [apply Hb|apply IH].
Qed.

Lemma keeps_console_log text : keeps_collections (console_log text).
Proof. by intros w. Qed.

Lemma keeps_console_error text e : keeps_collections (console_error text e).
Proof. by intros w. Qed.

Lemma keeps_snapshot_data snap : keeps_collections (snapshot_data snap).
Proof. by intros w. Qed.

Lemma keeps_get_users q : keeps_collections (get_users q).
Proof. intros w. unfold get_users. by destruct (get_fault _). Qed.

Lemma keeps_get_events q : keeps_collections (get_events q).
Proof. intros w. unfold get_events. by destruct (get_fault _). Qed.

Lemma keeps_batch_set batch d : keeps_collections (batch_set batch d).
Proof. intros w. unfold batch_set. by destruct (set_fault _ _). Qed.

Lemma keeps_batch_commit batch : keeps_collections (batch_commit batch).
Proof. intros w. unfold batch_commit. by destruct (commit_fault _ _). Qed.

Lemma keeps_getTargetAudience i ta : keeps_collections (getTargetAudience i ta).
Proof.
  apply keeps_bind; [apply keeps_get_users|]. intros. apply keeps_ret.
Qed.

Ltac keeps_step :=
  first
    [ apply keeps_ret | apply keeps_console_log | apply keeps_console_error
    | apply keeps_snapshot_data | apply keeps_getTargetAudience
    | apply keeps_get_events | apply keeps_batch_set | apply keeps_batch_commit
    | apply keeps_bind; [|intros]
    | apply keeps_try_catch; [|intros]
    | apply keeps_for_of; intros
    | match goal with
      | |- keeps_collections (if ?b then _ else _) => destruct b
      end ].

Lemma keeps_handlers snap before after id clock_now clock_date_now :
  keeps_collections (onEventCreated snap id) ∧
  keeps_collections (onEventUpdated before after id) ∧
  keeps_collections (onEventDeleted snap id) ∧
  keeps_collections (sendEventReminders clock_now clock_date_now).
Proof.
  unfold onEventCreated, onEventUpdated, onEventDeleted, sendEventReminders.
  split; [|split; [|split]]; cbv zeta; repeat keeps_step.
Qed.

(** X1: the three triggers and the sweep write notifications and console
    lines only: the users and events collections, the accounts and the
    platform's faults are the same after a run as before, whatever
    happened in it. *)
Theorem handlers_keep_collections snap before after id clock_now clock_date_now w :
  let unchanged (w' : World) :=
    users w' = users w ∧ events w' = events w ∧
    accounts w' = accounts w ∧ faults w' = faults w in
  unchanged (onEventCreated snap id w).2 ∧
  unchanged (onEventUpdated before after id w).2 ∧
  unchanged (onEventDeleted snap id w).2 ∧
  unchanged (sendEventReminders clock_now clock_date_now w).2.
Proof.
  destruct (keeps_handlers snap before after id clock_now clock_date_now)
    as (K1 & K2 & K3 & K4).
  cbv zeta. split; [apply K1|]. split; [apply K2|]. split; [apply K3|apply K4].
Qed.

(** ** Runs on a platform that refuses nothing *)

Lemma failure_no_faults batch : failure no_faults batch = None.
Proof. unfold failure. by rewrite first_set_fault_none. Qed.

Lemma written_no_faults snap before after id clock_now clock_date_now w :
  faults w = no_faults →
  written w (onEventCreated snap id w).2
    = map (created_notification snap id) (recipients_created snap w) ∧
  written w (onEventUpdated before after id w).2
    = map (updated_notification after id) (or_empty (registrations after)) ∧
  written w (onEventDeleted snap id w).2
    = map (cancelled_notification snap) (or_empty (registrations snap)) ∧
  written w (sendEventReminders clock_now clock_date_now w).2
    = reminders_of (upcoming clock_now clock_date_now w).
Proof.
  intros HF.
  destruct (onEventCreated_run snap id w) as (w1 & -> & H1 & _).
  destruct (onEventUpdated_run before after id w) as (w2 & -> & H2 & _).
  destruct (onEventDeleted_run snap id w) as (w3 & -> & H3 & _).
  destruct (sendEventReminders_run clock_now clock_date_now w) as (w4 & -> & H4 & _).
  cbn [snd]. rewrite HF in H1, H2, H3, H4. cbn [get_fault no_faults] in H1, H4.
  split; [|split; [|split]].
  - apply stores_fan_out in H1 as [_ ->]. by rewrite failure_no_faults.
  - destruct (or_empty (registrations after)) as [|r l].
    + by apply stores_unchanged in H2 as [_ ->].
    + apply stores_fan_out in H2 as [_ ->]. by rewrite failure_no_faults.
  - destruct (or_empty (registrations snap)) as [|r l].
    + by apply stores_unchanged in H3 as [_ ->].
    + apply stores_fan_out in H3 as [_ ->]. by rewrite failure_no_faults.
  - destruct (reminders_of _) as [|r l].
    + by apply stores_unchanged in H4 as [_ ->].
    + apply stores_fan_out in H4 as [_ ->]. by rewrite failure_no_faults.
Qed.

Lemma uid_filter_creator cid (l : list AudienceUser) :
  map uid (filter (fun user => uid user ≠ cid) l) = filter (fun u => u ≠ cid) (map uid l).
Proof.
  induction l as [|x l IH]; [done|].
  cbn [map]. rewrite !filter_cons, <- IH. by destruct (decide (uid x ≠ cid)).
Qed.



(** X2: nothing remembers a delivery.  When a trigger or the sweep is run a
    second time with the same input, on a platform that refuses nothing,
    the second run writes the same records as the first: every recipient
    has the notification twice. *)
Theorem redelivery_duplicates snap before after id clock_now clock_date_now w :
  faults w = no_faults →
  (let w1 := (onEventCreated snap id w).2 in
   written w1 (onEventCreated snap id w1).2 = written w w1) ∧
  (let w1 := (onEventUpdated before after id w).2 in
   written w1 (onEventUpdated before after id w1).2 = written w w1) ∧
  (let w1 := (onEventDeleted snap id w).2 in
   written w1 (onEventDeleted snap id w1).2 = written w w1) ∧
  (let w1 := (sendEventReminders clock_now clock_date_now w).2 in
   written w1 (sendEventReminders clock_now clock_date_now w1).2 = written w w1).
Proof.
  intros HF.
  destruct (keeps_handlers snap before after id clock_now clock_date_now)
    as (K1 & K2 & K3 & K4).
  destruct (written_no_faults snap before after id clock_now clock_date_now w HF)
    as (W1 & W2 & W3 & W4).
  split; [|split; [|split]]; cbv zeta.
  - destruct (K1 w) as (Hu & _ & _ & Hf). rewrite HF in Hf.
    destruct (written_no_faults snap before after id clock_now clock_date_now _ Hf)
      as (-> & _). rewrite W1. unfold recipients_created. by rewrite Hu.
  - destruct (K2 w) as (_ & _ & _ & Hf). rewrite HF in Hf.
    destruct (written_no_faults snap before after id clock_now clock_date_now _ Hf)
      as (_ & -> & _). by rewrite W2.
  - destruct (K3 w) as (_ & _ & _ & Hf). rewrite HF in Hf.
    destruct (written_no_faults snap before after id clock_now clock_date_now _ Hf)
      as (_ & _ & -> & _). by rewrite W3.
  - destruct (K4 w) as (_ & He & _ & Hf). rewrite HF in Hf.
    destruct (written_no_faults snap before after id clock_now clock_date_now _ Hf)
      as (_ & _ & _ & ->). rewrite W4. unfold upcoming. by rewrite He.
Qed.

Lemma redelivery_duplicates_witness :
  faults campus = no_faults ∧
  (let w1 := (onEventDeleted fair_with_creator "e1" campus).2 in
   written w1 (onEventDeleted fair_with_creator "e1" w1).2 = written campus w1).
Proof.
  split; [reflexivity|].
  apply (redelivery_duplicates fair_with_creator fair_before fair_after "e1" 0 0 campus).
  reflexivity.
Defined.

(** ** Empty recipient lists *)

(** X3: an update or a deletion of an event without registrations hands
    nothing to [commit] and writes nothing, whatever the platform would
    refuse and whoever the audience of the event is; a creation for which
    the resolver returns nobody but, possibly, the creator still commits,
    once, an empty batch. *)
Theorem empty_recipients snap before after id w :
  (or_empty (registrations after) = [] →
   submitted w (onEventUpdated before after id w).2 = [] ∧
   written w (onEventUpdated before after id w).2 = []) ∧
  (or_empty (registrations snap) = [] →
   submitted w (onEventDeleted snap id w).2 = [] ∧
   written w (onEventDeleted snap id w).2 = []) ∧
  (∀ audience,
     (getTargetAudience (institution snap) (targetAudience snap) w).1 = Returned audience →
     filter (fun u => u ≠ creatorId snap) (map uid audience) = [] →
     submitted w (onEventCreated snap id w).2 = [[]] ∧
     written w (onEventCreated snap id w).2 = []).
Proof.
  destruct (onEventCreated_run snap id w) as (w1 & -> & H1 & _).
  destruct (onEventUpdated_run before after id w) as (w2 & -> & H2 & _).
  destruct (onEventDeleted_run snap id w) as (w3 & -> & H3 & _).
  cbn [snd]. split; [|split].
  - intros Ha. rewrite Ha in H2. by apply stores_unchanged.
  - intros Hs. rewrite Hs in H3. by apply stores_unchanged.
  - intros audience. rewrite getTargetAudience_run.
    destruct (get_fault (faults w)) as [e|] eqn:Hget; [done|].
    cbn [fst]. intros [= <-]. rewrite <- uid_filter_creator. intros Hr.
    apply map_eq_nil in Hr. fold (recipients_created snap w) in Hr. rewrite Hr in H1.
    apply stores_fan_out in H1 as [-> ->]. cbn [map]. unfold failure.
    cbn [first_set_fault]. split; [done|]. by destruct (commit_fault _ _).
Qed.

Lemma empty_recipients_witness :
  let quiet := event_at noon "Annual fair" "Hall A" general [] in
  let chemistry := event_at noon "Annual fair" "Hall A" (department_of "Chemistry") [] in
  or_empty (registrations quiet) = [] ∧
  map uid (recipients_created quiet campus) = ["alice"; "bob"] ∧
  submitted campus (onEventUpdated quiet quiet "e1" campus).2 = [] ∧
  submitted campus (onEventDeleted quiet "e1" campus).2 = [] ∧
  (getTargetAudience (institution chemistry) (targetAudience chemistry) campus).1
    = Returned [] ∧
  submitted campus (onEventCreated chemistry "e1" campus).2 = [[]].
Proof.
  cbv zeta.
  pose proof (empty_recipients (event_at noon "Annual fair" "Hall A" general [])
                (event_at noon "Annual fair" "Hall A" general [])
                (event_at noon "Annual fair" "Hall A" general [])
                "e1" campus) as (Hu & Hd & _).
  pose proof (empty_recipients
                (event_at noon "Annual fair" "Hall A" (department_of "Chemistry") [])
                (event_at noon "Annual fair" "Hall A" general [])
                (event_at noon "Annual fair" "Hall A" general [])
                "e1" campus) as (_ & _ & Hc).
  split; [reflexivity|]. split; [by vm_compute|].
  split; [exact (proj1 (Hu eq_refl))|]. split; [exact (proj1 (Hd eq_refl))|].
  assert (Hq : (getTargetAudience
                  (institution (event_at noon "Annual fair" "Hall A"
                                  (department_of "Chemistry") []))
                  (targetAudience (event_at noon "Annual fair" "Hall A"
                                     (department_of "Chemistry") [])) campus).1
               = Returned []) by (by vm_compute).
  split; [exact Hq|]. exact (proj1 (Hc [] Hq eq_refl)).
Defined.

(** ** What a record says *)

Lemma reminders_of_elem n docs :
  n ∈ reminders_of docs →
  ∃ (doc : string * EventDoc) r,
    doc ∈ docs ∧ r ∈ or_empty (registrations doc.2) ∧
    n = reminder_notification doc.2 doc.1 r.
Proof.
  unfold reminders_of. rewrite list_elem_of_In, in_flat_map.
  intros (doc & Hd & Hn). apply list_elem_of_In, list_elem_of_fmap in Hn as (r & -> & Hr).
  exists doc, r. by rewrite list_elem_of_In.
Qed.

(** X4: every record a handler puts in a batch is unread, has the type of
    its branch, and quotes the title of the event it is about: the title
    after the change for an update, the title of the deleted document for a
    cancellation. *)
Theorem records_are_unread_and_typed snap before after id clock_now clock_date_now w :
  (∀ batch n, batch ∈ submitted w (onEventCreated snap id w).2 → n ∈ batch →
     isRead n = false ∧ type_ n = event_created ∧
     message n = "New event: " +:+ title snap) ∧
  (∀ batch n, batch ∈ submitted w (onEventUpdated before after id w).2 → n ∈ batch →
     isRead n = false ∧ type_ n = event_updated ∧
     message n = "Event " +:+ dquote +:+ title after +:+ dquote +:+ " has been updated") ∧
  (∀ batch n, batch ∈ submitted w (onEventDeleted snap id w).2 → n ∈ batch →
     isRead n = false ∧ type_ n = event_cancelled ∧
     message n = "Event " +:+ dquote +:+ title snap +:+ dquote +:+ " has been cancelled") ∧
  (∀ batch n,
     batch ∈ submitted w (sendEventReminders clock_now clock_date_now w).2 → n ∈ batch →
     isRead n = false ∧ type_ n = event_reminder ∧
     ∃ eid event,
       events w !! eid = Some event ∧ eventId n = Val eid ∧
       userId n ∈ map studentId (or_empty (registrations event)) ∧
       message n = "Reminder: " +:+ dquote +:+ title event +:+ dquote
                   +:+ " is happening soon!").
Proof.
  split; [|split; [|split]]; intros batch n Hb Hn.
  1: rewrite (one_commit_submitted _ _ _ _ (onEventCreated_one_commit snap id w) Hb) in Hn.
  2: rewrite (one_commit_submitted _ _ _ _ (onEventUpdated_one_commit before after id w) Hb)
       in Hn.
  3: rewrite (one_commit_submitted _ _ _ _ (onEventDeleted_one_commit snap id w) Hb) in Hn.
  1-3: by apply list_elem_of_fmap in Hn as (r & -> & Hr).
  rewrite (one_commit_submitted _ _ _ _
             (sendEventReminders_one_commit clock_now clock_date_now w) Hb) in Hn.
  apply reminders_of_elem in Hn as ([eid event] & r & Hd & Hr & ->).
  do 2 (split; [done|]). exists eid, event.
  unfold upcoming in Hd. apply run_query_spec in Hd as [Hev _].
  split; [done|]. split; [done|]. split; [|done].
  apply list_elem_of_fmap. by exists r.
Qed.

(** ** The count the create trigger logs *)

Lemma filter_drops_length {A} (P : A → Prop) `{∀ x, Decision (P x)} (l : list A) x :
  x ∈ l → ¬ P x → (length (filter P l) < length l)%nat.
Proof.
  induction l as [|y l IH]; intros Hin Hx.
  - by apply elem_of_nil in Hin.
  - rewrite filter_cons. pose proof (length_filter P l) as Hle.
    apply elem_of_cons in Hin as [<-|Hin].
    + rewrite decide_False by done. cbn [length]. lia.
    + specialize (IH Hin Hx). destruct (decide (P y)); cbn [length]; lia.
Qed.

(** X5: when nothing is refused, the create trigger ends by logging the
    size of the resolved audience as the number of notifications created;
    the number of records written is the size of the audience without the
    creator, which is never more and is less when the creator is in the
    audience. *)
Theorem created_count_logged snap id w :
  faults w = no_faults →
  let audience :=
    map audience_user
      (run_query (audience_query (institution snap) (targetAudience snap)) (users w)) in
  let w' := (onEventCreated snap id w).2 in
  last (console w') = Some (Log ("Created " +:+ pretty (length audience) +:+ " notifications")) ∧
  length (written w w') = length (filter (fun user => uid user ≠ creatorId snap) audience) ∧
  (length (written w w') ≤ length audience)%nat ∧
  ((∃ user, user ∈ audience ∧ uid user = creatorId snap) →
   (length (written w w') < length audience)%nat).
Proof.
  intros HF audience w'.
  destruct (written_no_faults snap snap snap id 0 0 w HF) as (Hw & _).
  fold w' in Hw. unfold recipients_created in Hw. fold audience in Hw.
  assert (Hlast : last (console w')
                  = Some (Log ("Created " +:+ pretty (length audience) +:+ " notifications"))).
  { subst w' audience. unfold onEventCreated, getTargetAudience. run_handler.
    rewrite HF. cbn [get_fault no_faults].
    change (creatorId (decode _ snap)) with (creatorId snap).
    change (institution (decode _ snap)) with (institution snap).
    change (targetAudience (decode _ snap)) with (targetAudience snap).
    rewrite for_of_skip_creator, for_of_batch_set. cbn [faults].
    rewrite first_set_fault_none by done. cbn [commit_fault no_faults faults snd console].
    by rewrite last_snoc, length_map. }
  split; [done|]. rewrite Hw, length_map. split; [done|]. split.
  - apply length_filter.
  - intros (user & Hin & Hu). apply (filter_drops_length _ _ user); [done|].
    intros Hne. by apply Hne.
Qed.

Lemma created_count_logged_witness :
  faults campus = no_faults ∧
  last (console (onEventCreated fair_before "e1" campus).2)
    = Some (Log ("Created " +:+ pretty 2%nat +:+ " notifications")).
Proof.
  split; [reflexivity|].
  apply (created_count_logged fair_before "e1" campus). reflexivity.
Defined.

(** ** Narrower audiences *)

(** X6: a descriptor never widens the audience: whoever is resolved for a
    department or a class of an institution is resolved for the general
    audience of that institution. *)
Theorem audience_within_general i ta w :
  get_fault (faults w) = None →
  ∃ narrow everyone,
    getTargetAudience i ta w = (Returned narrow, w) ∧
    getTargetAudience i {| ta_type := GENERAL; ta_value := None |} w
      = (Returned everyone, w) ∧
    narrow ⊆ everyone.
Proof.
  intros Hget. rewrite !getTargetAudience_run, Hget. do 2 eexists.
  split; [reflexivity|]. split; [reflexivity|].
  intros u (doc & -> & Hd)%list_elem_of_fmap. apply list_elem_of_fmap.
  exists doc. split; [done|]. destruct doc as [id d].
  apply run_query_spec in Hd as [Hl Hq]. apply run_query_spec. split; [done|].
  apply audience_query_spec in Hq as (Hr & Hi & _).
  apply audience_query_spec. by unfold audience_restriction.
Qed.

Lemma audience_within_general_witness :
  get_fault (faults campus) = None ∧
  ∃ narrow everyone,
    getTargetAudience "State University" (department_of "Physics") campus
      = (Returned narrow, campus) ∧
    getTargetAudience "State University" {| ta_type := GENERAL; ta_value := None |} campus
      = (Returned everyone, campus) ∧
    narrow ⊆ everyone.
Proof.
  split; [reflexivity|].
  apply (audience_within_general "State University" (department_of "Physics") campus).
  reflexivity.
Defined.

(** ** The edges of the reminder window *)

Lemma in_window_millis now ms :
  in_window now (Timestamp_fromMillis ms) ↔ now <= ms <= now + 24 * 60 * 60 * 1000.
Proof.
  rewrite in_window_nanos by apply Timestamp_fromMillis_valid.
  rewrite Timestamp_fromMillis_nanos. lia.
Qed.

(** X7: both ends of the window are included, so an event dated exactly
    twenty-four hours after a run is reminded by that run and again by the
    run of the next day: each of its registrants has the reminder in what
    either run writes. *)
Theorem boundary_event_reminded_twice now w id event r :
  faults w = no_faults →
  events w !! id = Some event →
  date event = Timestamp_fromMillis (now + 24 * 60 * 60 * 1000) →
  r ∈ or_empty (registrations event) →
  let day := 24 * 60 * 60 * 1000 in
  let w1 := (sendEventReminders now now w).2 in
  let w2 := (sendEventReminders (now + day) (now + day) w1).2 in
  reminder_notification event id r ∈ written w w1 ∧
  reminder_notification event id r ∈ written w1 w2.
Proof.
  intros HF Hev Hdate Hr day w1 w2.
  destruct (keeps_handlers event event event id now now)
    as (_ & _ & _ & K).
  destruct (K w) as (_ & He & _ & Hf). fold w1 in He, Hf. rewrite HF in Hf.
  destruct (written_no_faults event event event id now now w HF) as (_ & _ & _ & W1).
  destruct (written_no_faults event event event id (now + day) (now + day) w1 Hf)
    as (_ & _ & _ & W2).
  fold w1 in W1. fold w2 in W2. rewrite W1, W2.
  assert (Hmem : ∀ t w0, events w0 = events w → t <= now + day <= t + day →
                 reminder_notification event id r ∈ reminders_of (upcoming t t w0)).
  { intros t w0 Hw0 Ht. unfold reminders_of.
    apply list_elem_of_In, in_flat_map. exists (id, event). split.
    - apply list_elem_of_In, upcoming_spec. rewrite Hw0. split; [done|].
      rewrite Hdate. by apply in_window_millis.
    - apply list_elem_of_In, list_elem_of_fmap. by exists r. }
  split; apply Hmem; (done || (subst day; lia)).
Qed.

Lemma boundary_event_reminded_twice_witness :
  let w := world_of campus_users
             {[ "edge" := event_at (Timestamp_fromMillis (0 + 24 * 60 * 60 * 1000))
                            "d" "Hall A" general ["alice"] ]} in
  faults w = no_faults ∧
  reminder_notification
    (event_at (Timestamp_fromMillis (0 + 24 * 60 * 60 * 1000)) "d" "Hall A" general ["alice"])
    "edge" (registration_of "alice")
  ∈ written w (sendEventReminders 0 0 w).2.
Proof.
  cbv zeta. split; [reflexivity|].
  apply (boundary_event_reminded_twice 0 _ "edge"
           (event_at (Timestamp_fromMillis (0 + 24 * 60 * 60 * 1000))
              "d" "Hall A" general ["alice"])
           (registration_of "alice")).
  - reflexivity.
  - apply lookup_singleton_eq.
  - reflexivity.
  - apply list_elem_of_here.
Defined.

End LifecycleFacts.

(** * Properties of the user management callables *)

Module ProvisioningFacts.
Import Functions Samples Provisioning FunctionsFacts.

(** ** deleteUser *)

(** X8: [deleteUser] for a signed-in caller.  When it returns, the caller
    is an admin, the target is another user of the caller's institution,
    and the target's document and account are gone; when it throws, the
    error has the code [internal] and no user document has been removed. *)
Theorem deleteUser_outcomes data_userId auth_uid w :
  let run := deleteUser data_userId (Some auth_uid) w in
  match run.1 with
  | Returned _ =>
      may_delete w auth_uid data_userId ∧
      users run.2 = delete data_userId (users w) ∧
      accounts run.2 = accounts w ∖ {[ data_userId ]}
  | Thrown e =>
      users run.2 = users w ∧ ∃ m, e = HttpsError internal m
  end.
Proof.
  cbv zeta. unfold deleteUser, try_catch, bind, get_user, throw, console_error,
    auth_deleteUser, users_doc_delete, console_log, ret.
  destruct (get_fault (faults w)) as [e|] eqn:Hget; cbn [fst snd users];
    [by eauto|].
  destruct (users w !! auth_uid) as [caller|] eqn:Hc; cbn [fst snd users];
    [|by eauto].
  case_bool_decide as Hrole; cbn [negb fst snd users]; [|by eauto].
  destruct (String.eqb_spec data_userId auth_uid) as [Heq|Hne];
    cbn [fst snd users]; [by eauto|].
  rewrite Hget. destruct (users w !! data_userId) as [target|] eqn:Ht;
    cbn [fst snd users]; [|by eauto].
  destruct (String.eqb_spec (user_institution target) (user_institution caller))
    as [Hi|Hi]; cbn [negb fst snd users]; [|by eauto].
  destruct (auth_fault (faults w) data_userId); cbn [fst snd users accounts faults];
    [by eauto|].
  destruct (delete_fault (faults w)); cbn [fst snd users accounts]; [by eauto|].
  split; [|done]. by exists caller, target.
Qed.

(** X9: on a platform that answers the reads, deletes the account and
    deletes the document, an admin who names another user of their own
    institution gets that user deleted: the call returns, the user document
    is no longer in the collection and the other documents are as they
    were. *)
Theorem deleteUser_allowed_goes_through data_userId auth_uid w :
  get_fault (faults w) = None →
  auth_fault (faults w) data_userId = None →
  delete_fault (faults w) = None →
  may_delete w auth_uid data_userId →
  ∃ w', deleteUser data_userId (Some auth_uid) w = (Returned {| success := true |}, w') ∧
        users w' !! data_userId = None ∧
        ∀ other, other ≠ data_userId → users w' !! other = users w !! other.
Proof.
  intros Hget Hauth Hdel (caller & target & Hc & Hrole & Hne & Ht & Hi).
  unfold deleteUser, try_catch, bind, get_user, throw, console_error,
    auth_deleteUser, users_doc_delete, console_log, ret.
  rewrite Hget, Hc. rewrite bool_decide_eq_true_2 by done. cbn [negb].
  destruct (String.eqb_spec data_userId auth_uid) as [|_]; [done|].
  rewrite Hget, Ht. rewrite Hi, String.eqb_refl. cbn [negb faults].
  rewrite Hauth. cbn [faults]. rewrite Hdel.
  eexists. split; [reflexivity|]. cbn [users]. split.
  - apply lookup_delete_eq.
  - intros other Ho. by apply lookup_delete_ne.
Qed.

Lemma deleteUser_allowed_goes_through_witness :
  get_fault (faults campus) = None ∧
  auth_fault (faults campus) "bob" = None ∧
  delete_fault (faults campus) = None ∧
  may_delete campus "admin-uid" "bob" ∧
  ∃ w', deleteUser "bob" (Some "admin-uid") campus = (Returned {| success := true |}, w') ∧
        users w' !! "bob" = None ∧
        ∀ other, other ≠ "bob" → users w' !! other = users campus !! other.
Proof.
  assert (Hm : may_delete campus "admin-uid" "bob").
  { exists (staff ADMIN "State University"), (student "State University" "Physics" "PH201").
    split; [vm_compute; reflexivity|]. split; [reflexivity|].
    split; [discriminate|]. split; [vm_compute; reflexivity|reflexivity]. }
  split; [reflexivity|]. split; [reflexivity|]. split; [reflexivity|]. split; [exact Hm|].
  apply (deleteUser_allowed_goes_through "bob" "admin-uid" campus); [reflexivity..|exact Hm].
Defined.

(** X19: [deleteUser] does not restore the account when the document
    cannot be deleted: for a deletion that is allowed, if the platform
    deletes the account and then refuses to delete the document, the call
    throws [internal], the account is gone, and the user document is still
    in the collection. *)
Theorem deleteUser_leaves_document data_userId auth_uid e w :
  get_fault (faults w) = None →
  auth_fault (faults w) data_userId = None →
  delete_fault (faults w) = Some e →
  may_delete w auth_uid data_userId →
  let run := deleteUser data_userId (Some auth_uid) w in
  run.1 = Thrown (HttpsError internal (or_default (message_of e) "Failed to delete user")) ∧
  (data_userId ∉ accounts run.2) ∧
  users run.2 = users w.
Proof.
  intros Hget Hauth Hdel (caller & target & Hc & Hrole & Hne & Ht & Hi). cbv zeta.
  unfold deleteUser, try_catch, bind, get_user, throw, console_error,
    auth_deleteUser, users_doc_delete, console_log, ret.
  rewrite Hget, Hc. rewrite bool_decide_eq_true_2 by done. cbn [negb].
  destruct (String.eqb_spec data_userId auth_uid) as [|_]; [done|].
  rewrite Hget, Ht. rewrite Hi, String.eqb_refl. cbn [negb faults].
  rewrite Hauth. cbn [faults]. rewrite Hdel. cbn [fst snd users accounts].
  split; [done|]. split; [|done].
  rewrite elem_of_difference. intros [_ Hnot]. apply Hnot. by apply elem_of_singleton.
Qed.

Lemma deleteUser_leaves_document_witness :
  let refusing :=
    {| users := campus_users; events := ∅; accounts := {[ "bob" ]};
       notifications := []; commits := []; console := []; next_object := 0;
       faults := {| get_fault := None; set_fault := fun _ => None;
                    commit_fault := fun _ => None; auth_fault := fun _ => None;
                    delete_fault := Some (PlatformError "unavailable") |} |} in
  may_delete refusing "admin-uid" "bob" ∧
  (deleteUser "bob" (Some "admin-uid") refusing).1
    = Thrown (HttpsError internal "unavailable") ∧
  ("bob" ∉ accounts (deleteUser "bob" (Some "admin-uid") refusing).2) ∧
  users (deleteUser "bob" (Some "admin-uid") refusing).2 = campus_users.
Proof.
  cbv zeta.
  match goal with |- may_delete ?w _ _ ∧ _ => set (refusing := w) end.
  assert (Hm : may_delete refusing "admin-uid" "bob").
  { exists (staff ADMIN "State University"), (student "State University" "Physics" "PH201").
    split; [vm_compute; reflexivity|]. split; [reflexivity|].
    split; [discriminate|]. split; [vm_compute; reflexivity|reflexivity]. }
  split; [exact Hm|].
  apply (deleteUser_leaves_document "bob" "admin-uid" (PlatformError "unavailable")
           refusing eq_refl eq_refl eq_refl Hm).
Defined.

(** ** createUser *)

(** X10: [createUser].  Without a caller identity it throws
    [unauthenticated] and changes nothing.  For a signed-in caller, when it
    returns the caller is an admin, the account is the one the platform
    created, and the stored document has the id of that account, the role
    asked for and the institution of the caller; when it throws, the error
    has the code [internal] and no user document has been written. *)
Theorem createUser_outcomes D data auth_uid w :
  createUser D data None w
    = (Thrown (HttpsError unauthenticated "Must be authenticated"), w) ∧
  let run := createUser D data (Some auth_uid) w in
  match run.1 with
  | Returned result =>
      ∃ caller doc,
        users w !! auth_uid = Some caller ∧ user_role caller = ADMIN ∧
        new_account D (cu_email data) (cu_temporaryPassword data)
          = inr (cr_userId result) ∧
        users run.2 = <[ cr_userId result := doc ]> (users w) ∧
        accounts run.2 = {[ cr_userId result ]} ∪ accounts w ∧
        user_uid doc = Some (cr_userId result) ∧
        user_role doc = cu_role data ∧
        user_institution doc = user_institution caller
  | Thrown e =>
      users run.2 = users w ∧ ∃ m, e = HttpsError internal m
  end.
Proof.
  split; [done|]. cbv zeta.
  unfold createUser, try_catch, bind, get_user, throw, console_error,
    auth_createUser, users_doc_set, console_log, ret.
  destruct (get_fault (faults w)) as [e|]; cbn [fst snd users]; [by eauto|].
  destruct (users w !! auth_uid) as [caller|] eqn:Hc; cbn [fst snd users];
    [|by eauto].
  case_bool_decide as Hrole; cbn [negb fst snd users]; [|by eauto].
  destruct (new_account D _ _) as [e|id] eqn:Hnew; cbn [fst snd users];
    [by eauto|].
  destruct (set_user_fault D); cbn [fst snd users accounts cr_userId];
    [by eauto|].
  exists caller, (created_user_doc id data caller). done.
Qed.

(** X11: [createUser] does not undo the account when the document cannot
    be written: for an admin caller, if the platform creates the account
    and then refuses the [set], the call throws [internal], the account is
    there, and the users collection has no document for it. *)
Theorem createUser_leaves_account D data auth_uid caller id e w :
  get_fault (faults w) = None →
  users w !! auth_uid = Some caller →
  user_role caller = ADMIN →
  new_account D (cu_email data) (cu_temporaryPassword data) = inr id →
  set_user_fault D = Some e →
  let run := createUser D data (Some auth_uid) w in
  run.1 = Thrown (HttpsError internal (or_default (message_of e) "Failed to create user")) ∧
  id ∈ accounts run.2 ∧
  users run.2 = users w.
Proof.
  intros Hget Hc Hrole Hnew Hset. cbv zeta.
  unfold createUser, try_catch, bind, get_user, throw, console_error,
    auth_createUser, users_doc_set, console_log, ret.
  rewrite Hget, Hc. rewrite bool_decide_eq_true_2 by done. cbn [negb].
  rewrite Hnew, Hset. cbn [fst snd users accounts].
  split; [done|]. split; [set_solver|done].
Qed.

Lemma createUser_leaves_account_witness :
  let D := {| new_account := fun _ _ => inr "new-uid";
              set_user_fault := Some (PlatformError "unavailable") |} in
  let data := {| cu_email := "dave@example.com"; cu_temporaryPassword := "secret";
                 cu_role := STUDENT; cu_department := Some "Physics";
                 cu_class := None |} in
  get_fault (faults campus) = None ∧
  users campus !! "admin-uid" = Some (staff ADMIN "State University") ∧
  (createUser D data (Some "admin-uid") campus).1
    = Thrown (HttpsError internal "unavailable") ∧
  "new-uid" ∈ accounts (createUser D data (Some "admin-uid") campus).2 ∧
  users (createUser D data (Some "admin-uid") campus).2 = users campus.
Proof.
  cbv zeta. split; [reflexivity|]. split; [vm_compute; reflexivity|].
  apply (createUser_leaves_account
           {| new_account := fun _ _ => inr "new-uid";
              set_user_fault := Some (PlatformError "unavailable") |}
           {| cu_email := "dave@example.com"; cu_temporaryPassword := "secret";
              cu_role := STUDENT; cu_department := Some "Physics"; cu_class := None |}
           "admin-uid" (staff ADMIN "State University") "new-uid"
           (PlatformError "unavailable") campus);
    (reflexivity || (vm_compute; reflexivity)).
Defined.

End ProvisioningFacts.

(** * Further properties of the client operations on events *)

Module ClientEventFacts.
Import Client ClientSamples ClientEvents ClientFacts.

(** ** Refusals *)

(** X12: with nobody signed in, registering, unregistering, submitting
    feedback and updating an event all fail with [UNAUTHORIZED] (401)
    before anything is read or written, whatever the event and whatever the
    platform would have answered. *)
Theorem signed_out_is_refused w eventId registration student fb updates :
  currentUser w = None →
  let refused (run : Outcome unit * World) :=
    run.1 = Thrown (AppError UNAUTHORIZED "User not authenticated" 401) ∧
    events run.2 = events w in
  refused (registerForEvent eventId registration w) ∧
  refused (unregisterFromEvent eventId student w) ∧
  refused (submitFeedback eventId fb w) ∧
  refused (updateEvent eventId updates w).
Proof.
  intros Hu. cbv zeta.
  unfold registerForEvent, unregisterFromEvent, submitFeedback, updateEvent,
    try_catch, bind, checkAuth.
  rewrite Hu. done.
Qed.

Lemma signed_out_is_refused_witness :
  currentUser signed_out = None ∧
  (registerForEvent "e1" alice_registration signed_out).1
    = Thrown (AppError UNAUTHORIZED "User not authenticated" 401) ∧
  events (registerForEvent "e1" alice_registration signed_out).2 = events signed_out.
Proof.
  split; [reflexivity|].
  apply (signed_out_is_refused signed_out "e1" alice_registration "alice"
           alice_feedback new_description).
  reflexivity.
Defined.

(** X13: for a signed-in user, an event id with no document makes
    registering, unregistering and submitting feedback fail with
    [NOT_FOUND] (404); updating it fails with [INTERNAL_ERROR] (500), the
    platform's own refusal being replaced.  Nothing is written. *)
Theorem missing_event w eventId registration student fb updates :
  currentUser w ≠ None →
  getDoc_fault w = None →
  updateDoc_fault w = None →
  events w !! eventId = None →
  (registerForEvent eventId registration w).1
    = Thrown (AppError NOT_FOUND "Event not found" 404) ∧
  (unregisterFromEvent eventId student w).1
    = Thrown (AppError NOT_FOUND "Event not found" 404) ∧
  (submitFeedback eventId fb w).1
    = Thrown (AppError NOT_FOUND "Event not found" 404) ∧
  (updateEvent eventId updates w).1
    = Thrown (AppError INTERNAL_ERROR "Failed to update event" 500) ∧
  events (registerForEvent eventId registration w).2 = events w ∧
  events (unregisterFromEvent eventId student w).2 = events w ∧
  events (submitFeedback eventId fb w).2 = events w ∧
  events (updateEvent eventId updates w).2 = events w.
Proof.
  intros Hu Hg Hup Hev.
  unfold registerForEvent, unregisterFromEvent, submitFeedback, updateEvent,
    try_catch, bind, checkAuth, getDoc, updateDoc.
  destruct (currentUser w); [|done]. rewrite Hg, Hup, Hev. done.
Qed.

Lemma missing_event_witness :
  currentUser signed_in ≠ None ∧
  events signed_in !! "e2" = None ∧
  (unregisterFromEvent "e2" "alice" signed_in).1
    = Thrown (AppError NOT_FOUND "Event not found" 404).
Proof.
  assert (H1 : currentUser signed_in ≠ None) by discriminate.
  assert (H2 : events signed_in !! "e2" = None) by (vm_compute; reflexivity).
  split; [exact H1|]. split; [exact H2|].
  apply (missing_event signed_in "e2" alice_registration "alice" alice_feedback
           new_description H1 eq_refl eq_refl H2).
Defined.

(** X14: an error of the platform never reaches the caller as it is: when
    [getDoc] rejects with an error that is not an [AppError], registering,
    unregistering and submitting feedback throw [INTERNAL_ERROR] (500) with
    the message of the operation, and when [updateDoc] rejects so does
    updating an event; the events are as they were. *)
Theorem platform_errors_are_replaced w eventId registration student fb updates e :
  currentUser w ≠ None →
  instanceof_AppError e = false →
  (getDoc_fault w = Some e →
   (registerForEvent eventId registration w).1
     = Thrown (AppError INTERNAL_ERROR "Failed to register for event" 500) ∧
   (unregisterFromEvent eventId student w).1
     = Thrown (AppError INTERNAL_ERROR "Failed to unregister from event" 500) ∧
   (submitFeedback eventId fb w).1
     = Thrown (AppError INTERNAL_ERROR "Failed to submit feedback" 500) ∧
   events (registerForEvent eventId registration w).2 = events w ∧
   events (unregisterFromEvent eventId student w).2 = events w ∧
   events (submitFeedback eventId fb w).2 = events w) ∧
  (updateDoc_fault w = Some e →
   (updateEvent eventId updates w).1
     = Thrown (AppError INTERNAL_ERROR "Failed to update event" 500) ∧
   events (updateEvent eventId updates w).2 = events w).
Proof.
  intros Hu He. split; intros Hf;
    unfold registerForEvent, unregisterFromEvent, submitFeedback, updateEvent,
      try_catch, bind, checkAuth, getDoc, updateDoc;
    (destruct (currentUser w); [|done]); rewrite Hf; cbn; rewrite He; done.
Qed.

Lemma platform_errors_are_replaced_witness :
  let offline :=
    {| currentUser := Some "alice"; events := events signed_in;
       server_time := Timestamp_fromMillis 1000; console := [];
       getDoc_fault := Some (PlatformError "unavailable");
       updateDoc_fault := None |} in
  currentUser offline ≠ None ∧
  instanceof_AppError (PlatformError "unavailable") = false ∧
  getDoc_fault offline = Some (PlatformError "unavailable") ∧
  (registerForEvent "e1" alice_registration offline).1
    = Thrown (AppError INTERNAL_ERROR "Failed to register for event" 500).
Proof.
  cbv zeta.
  split; [discriminate|]. split; [reflexivity|]. split; [reflexivity|].
  eapply (platform_errors_are_replaced _ "e1" alice_registration "alice" alice_feedback
            new_description (PlatformError "unavailable")); [discriminate|reflexivity..].
Defined.

(** ** The errors a caller can see *)

(** The codes the four operations throw. *)
Lemma thrown_codes_of_handler (body : M unit) text m w :
  (∀ e w', body w = (Thrown e, w') →
     instanceof_AppError e = false ∨
     ∃ c msg st, e = AppError c msg st ∧
                 c ∈ [UNAUTHORIZED; NOT_FOUND; ALREADY_EXISTS]) →
  ∀ e w',
    try_catch body (fun error =>
      let* _ := console_error text error in
      if instanceof_AppError error then throw error
      else throw (AppError INTERNAL_ERROR m 500)) w = (Thrown e, w') →
    ∃ c msg st, e = AppError c msg st ∧
                c ∈ [UNAUTHORIZED; NOT_FOUND; ALREADY_EXISTS; INTERNAL_ERROR].
Proof.
  intros Hbody e w'. unfold try_catch, bind, console_error, throw.
  destruct (body w) as [[[]|e0] w0] eqn:Hb; [done|].
  destruct (Hbody e0 w0 eq_refl) as [Hna|(c & msg & st & -> & Hc)].
  - rewrite Hna. intros [= <- _]. do 3 eexists. split; [done|]. set_solver.
  - cbn [instanceof_AppError]. intros [= <- _]. do 3 eexists. split; [done|].
    clear -Hc. rewrite !elem_of_cons in Hc. rewrite !elem_of_cons. tauto.
Qed.

(** X15: whatever the store holds and whatever the platform refuses with
    errors of its own, every error the caller of one of the four
    operations receives is an [AppError], and its code is [UNAUTHORIZED],
    [NOT_FOUND], [ALREADY_EXISTS] or [INTERNAL_ERROR]: an out-of-range
    rating or a foreign student id is never refused as [INVALID_INPUT] or
    [FORBIDDEN]. *)
Theorem thrown_errors_are_app_errors w eventId registration student fb updates :
  (∀ e, getDoc_fault w = Some e → instanceof_AppError e = false) →
  (∀ e, updateDoc_fault w = Some e → instanceof_AppError e = false) →
  let coded (run : Outcome unit * World) :=
    ∀ e, run.1 = Thrown e →
      ∃ c msg st, e = AppError c msg st ∧
                  c ∈ [UNAUTHORIZED; NOT_FOUND; ALREADY_EXISTS; INTERNAL_ERROR] in
  coded (registerForEvent eventId registration w) ∧
  coded (unregisterFromEvent eventId student w) ∧
  coded (submitFeedback eventId fb w) ∧
  coded (updateEvent eventId updates w).
Proof.
  intros Hg Hu. cbv zeta.
  assert (Hcase : ∀ run : Outcome unit * World,
            (∀ e w', run = (Thrown e, w') →
               ∃ c msg st, e = AppError c msg st ∧
                 c ∈ [UNAUTHORIZED; NOT_FOUND; ALREADY_EXISTS; INTERNAL_ERROR]) →
            ∀ e, run.1 = Thrown e →
               ∃ c msg st, e = AppError c msg st ∧
                 c ∈ [UNAUTHORIZED; NOT_FOUND; ALREADY_EXISTS; INTERNAL_ERROR]).
  { intros [o w'] H e He. cbn in He. subst o. by eapply H. }
  split; [|split; [|split]]; apply Hcase;
    apply thrown_codes_of_handler; intros e w';
    unfold bind, checkAuth, getDoc, updateDoc, throw;
    (destruct (currentUser w);
       [|intros [= <- _]; right; do 3 eexists; split; [done|set_solver]]).
  - destruct (getDoc_fault w) as [e0|] eqn:Hf; [intros [= <- _]; left; by apply Hg|].
    destruct (events w !! eventId) as [event|];
      [|intros [= <- _]; right; do 3 eexists; split; [done|set_solver]].
    destruct (optional_some _ _);
      [intros [= <- _]; right; do 3 eexists; split; [done|set_solver]|].
    unfold updateDoc_arrayUnion, throw. intros [= <- _]. by left.
  - destruct (getDoc_fault w) as [e0|] eqn:Hf; [intros [= <- _]; left; by apply Hg|].
    destruct (events w !! eventId) as [event|];
      [|intros [= <- _]; right; do 3 eexists; split; [done|set_solver]].
    destruct (optional_find _ _);
      [|intros [= <- _]; right; do 3 eexists; split; [done|set_solver]].
    destruct (updateDoc_fault w) as [e0|] eqn:Hf2; [intros [= <- _]; left; by apply Hu|].
    destruct (events w !! eventId); [done|]. intros [= <- _]. by left.
  - destruct (getDoc_fault w) as [e0|] eqn:Hf; [intros [= <- _]; left; by apply Hg|].
    destruct (events w !! eventId) as [event|];
      [|intros [= <- _]; right; do 3 eexists; split; [done|set_solver]].
    destruct (optional_some _ _);
      [intros [= <- _]; right; do 3 eexists; split; [done|set_solver]|].
    unfold updateDoc_arrayUnion, throw. intros [= <- _]. by left.
  - destruct (updateDoc_fault w) as [e0|] eqn:Hf2; [intros [= <- _]; left; by apply Hu|].
    destruct (events w !! eventId); [done|]. intros [= <- _]. by left.
Qed.

Lemma thrown_errors_are_app_errors_witness :
  (∀ e, getDoc_fault signed_in = Some e → instanceof_AppError e = false) ∧
  (∀ e, updateDoc_fault signed_in = Some e → instanceof_AppError e = false) ∧
  ∀ e, (submitFeedback "e1" alice_feedback signed_in).1 = Thrown e →
    ∃ c msg st, e = AppError c msg st ∧
                c ∈ [UNAUTHORIZED; NOT_FOUND; ALREADY_EXISTS; INTERNAL_ERROR].
Proof.
  assert (H1 : ∀ e, getDoc_fault signed_in = Some e → instanceof_AppError e = false)
    by (intros e H; discriminate H).
  assert (H2 : ∀ e, updateDoc_fault signed_in = Some e → instanceof_AppError e = false)
    by (intros e H; discriminate H).
  split; [exact H1|]. split; [exact H2|].
  apply (thrown_errors_are_app_errors signed_in "e1" alice_registration "alice"
           alice_feedback new_description H1 H2).
Defined.

(** ** One entry per student *)

Lemma updateDoc_events eventId fields w :
  events (updateDoc eventId fields w).2 = events w ∨
  ∃ doc, events w !! eventId = Some doc ∧
         events (updateDoc eventId fields w).2
           = <[ eventId := fields (server_time w) doc ]> (events w).
Proof.
  unfold updateDoc. destruct (updateDoc_fault w); [by left|].
  destruct (events w !! eventId) as [doc|]; [|by left]. right. by exists doc.
Qed.

Lemma store_at_most_once_insert w events' eventId doc :
  store_at_most_once w →
  at_most_once doc →
  events' = <[ eventId := doc ]> (events w) →
  ∀ id event, events' !! id = Some event → at_most_once event.
Proof.
  intros Hw Hd -> id event. rewrite lookup_insert.
  case_decide; [by intros [= <-]|apply Hw].
Qed.

Lemma NoDup_fmap_arrayRemove {A B} `{EqDecision A} (f : A → B) (x : A) arr :
  NoDup (map f (or_empty arr)) → NoDup (map f (arrayRemove x arr)).
Proof.
  intros Hnd. unfold arrayRemove.
  apply (sublist_NoDup _ (map f (or_empty arr))); [exact Hnd|].
  apply (fmap_sublist f), sublist_filter.
Qed.

Lemma events_try_catch (body : M unit) text m w :
  events (try_catch body (fun error =>
            let* _ := console_error text error in
            if instanceof_AppError error then throw error
            else throw (AppError INTERNAL_ERROR m 500)) w).2
  = events (body w).2.
Proof.
  unfold try_catch, bind, console_error, throw.
  destruct (body w) as [[[]|e] w0]; [done|]. by destruct (instanceof_AppError e).
Qed.

Lemma store_at_most_once_events w w' :
  events w' = events w → store_at_most_once w → store_at_most_once w'.
Proof. intros He Hw id event. rewrite He. apply Hw. Qed.

Lemma store_at_most_once_updateDoc w eventId fields :
  store_at_most_once w →
  (∀ doc, events w !! eventId = Some doc → at_most_once (fields (server_time w) doc)) →
  store_at_most_once (updateDoc eventId fields w).2.
Proof.
  intros Hw Hf.
  destruct (updateDoc_events eventId fields w) as [Hsame|(doc & Hdoc & Hins)].
  - by eapply store_at_most_once_events.
  - intros id event. eapply store_at_most_once_insert; [exact Hw| |exact Hins]. by apply Hf.
Qed.

(** X16: the operations keep the invariant of the data model.  If every
    event of the store has at most one registration and at most one
    feedback per student, it is still so after registering, unregistering,
    submitting feedback or updating an event, whether the call returned or
    threw. *)
Theorem at_most_once_is_kept w eventId registration student fb updates :
  store_at_most_once w →
  store_at_most_once (registerForEvent eventId registration w).2 ∧
  store_at_most_once (unregisterFromEvent eventId student w).2 ∧
  store_at_most_once (submitFeedback eventId fb w).2 ∧
  store_at_most_once (updateEvent eventId updates w).2.
Proof.
  intros Hw.
  split; [|split; [|split]];
    (eapply store_at_most_once_events; [apply events_try_catch|]);
    unfold bind, checkAuth, getDoc, throw;
    (destruct (currentUser w); [|done]).
  - destruct (getDoc_fault w); [done|].
    destruct (events w !! eventId) as [event|] eqn:Hev; [|done].
    by destruct (optional_some _ _).
  - destruct (getDoc_fault w); [done|].
    destruct (events w !! eventId) as [event|] eqn:Hev; [|done].
    destruct (optional_find _ _) as [found|]; [|done].
    apply store_at_most_once_updateDoc; [done|]. intros doc Hd.
    assert (doc = event) as -> by congruence.
    destruct (Hw _ _ Hev) as [Hr Hf]. split; [|done].
    by apply NoDup_fmap_arrayRemove.
  - destruct (getDoc_fault w); [done|].
    destruct (events w !! eventId) as [event|] eqn:Hev; [|done].
    by destruct (optional_some _ _).
  - apply store_at_most_once_updateDoc; [done|]. intros doc Hdoc. exact (Hw _ _ Hdoc).
Qed.

Lemma signed_in_at_most_once : store_at_most_once signed_in.
Proof.
  intros id event Hev. unfold signed_in in Hev. cbn [events] in Hev.
  apply lookup_singleton_Some in Hev as [_ <-].
  split; cbn; apply NoDup_singleton.
Qed.

Lemma at_most_once_is_kept_witness :
  store_at_most_once signed_in ∧
  store_at_most_once (registerForEvent "e1" alice_registration signed_in).2 ∧
  store_at_most_once (unregisterFromEvent "e1" "alice" signed_in).2 ∧
  store_at_most_once (submitFeedback "e1" alice_feedback signed_in).2 ∧
  store_at_most_once (updateEvent "e1" new_description signed_in).2.
Proof.
  split; [exact signed_in_at_most_once|].
  exact (at_most_once_is_kept signed_in "e1" alice_registration "alice" alice_feedback
           new_description signed_in_at_most_once).
Defined.

(** ** Unregistering *)

Lemma optional_find_none {A} (arr : option (list A)) (pred : A → bool) :
  (∀ x, x ∈ or_empty arr → pred x = false) → optional_find arr pred = None.
Proof.
  destruct arr as [l|]; [|done]. cbn. intros H.
  induction l as [|y l IH]; [done|]. cbn.
  rewrite (H y) by apply list_elem_of_here. apply IH. intros x Hx. apply H.
  by apply list_elem_of_further.
Qed.

Lemma optional_find_some {A} (arr : option (list A)) (pred : A → bool) x :
  optional_find arr pred = Some x → x ∈ or_empty arr ∧ pred x = true.
Proof.
  destruct arr as [l|]; [|done]. cbn. intros [Hin Hp]%find_some.
  by apply list_elem_of_In in Hin.
Qed.

Lemma filter_ext_elem {A} (P Q : A → Prop) `{∀ x, Decision (P x), ∀ x, Decision (Q x)}
    (l : list A) :
  (∀ x, x ∈ l → (P x ↔ Q x)) → filter P l = filter Q l.
Proof.
  induction l as [|y l IH]; intros Heq; [done|].
  rewrite !filter_cons.
  rewrite IH by (intros x Hx; apply Heq; by apply list_elem_of_further).
  destruct (Heq y (list_elem_of_here _ _)) as [H1 H2].
  destruct (decide (P y)), (decide (Q y)); tauto || done.
Qed.

Lemma filter_other_students (l : list Registration) found :
  NoDup (map studentId l) → found ∈ l →
  filter (fun r => r ≠ found) l = filter (fun r => studentId r ≠ studentId found) l.
Proof.
  intros Hnd Hin. apply filter_ext_elem. intros r Hr. split.
  - intros Hne Heq. apply Hne.
    apply list_elem_of_lookup in Hr as [i Hi]. apply list_elem_of_lookup in Hin as [j Hj].
    assert (i = j) as ->; [|congruence].
    apply (NoDup_lookup (map studentId l) i j (studentId r)); [exact Hnd| |].
    + change (map studentId l) with (studentId <$> l). by rewrite list_lookup_fmap, Hi.
    + change (map studentId l) with (studentId <$> l).
      by rewrite list_lookup_fmap, Hj, Heq.
  - intros Hne ->. by apply Hne.
Qed.

(** X17: unregistering.  For a signed-in user and an event that [getDoc]
    returns: when the student has no registration, the call fails with
    [NOT_FOUND] "Registration not found" and writes nothing; when the
    student has one, the event has at most one registration per student and
    [updateDoc] accepts the write, the call returns and the registrations
    of the event are the former ones without that student, in their order,
    its other fields being unchanged except for the update time. *)
Theorem unregisterFromEvent_outcomes w eventId event student :
  currentUser w ≠ None →
  getDoc_fault w = None →
  updateDoc_fault w = None →
  events w !! eventId = Some event →
  NoDup (map studentId (or_empty (registrations event))) →
  let run := unregisterFromEvent eventId student w in
  (student ∉ map studentId (or_empty (registrations event)) →
   run.1 = Thrown (AppError NOT_FOUND "Registration not found" 404) ∧
   events run.2 = events w) ∧
  (student ∈ map studentId (or_empty (registrations event)) →
   run.1 = Returned tt ∧
   (∀ other, other ≠ eventId → events run.2 !! other = events w !! other) ∧
   ∃ stored,
     events run.2 !! eventId = Some stored ∧
     registrations stored
       = Some (filter (fun r => studentId r ≠ student) (or_empty (registrations event))) ∧
     (student ∉ map studentId (or_empty (registrations stored))) ∧
     updatedAt stored = server_time w ∧
     feedback stored = feedback event ∧
     title stored = title event ∧
     description stored = description event ∧
     date stored = date event ∧
     location stored = location event ∧
     creatorId stored = creatorId event ∧
     creatorName stored = creatorName event ∧
     institution stored = institution event ∧
     targetAudience stored = targetAudience event ∧
     createdAt stored = createdAt event).
Proof.
  intros Hu Hg Hup Hev Hnd. cbv zeta.
  unfold unregisterFromEvent, try_catch, bind, checkAuth, getDoc, updateDoc.
  destruct (currentUser w); [|done]. rewrite Hg, Hev. split.
  - intros Hnot. rewrite optional_find_none; [done|].
    intros r Hr. destruct (String.eqb_spec (studentId r) student) as [<-|]; [|done].
    exfalso. apply Hnot, list_elem_of_fmap. by exists r.
  - intros Hin. destruct (optional_find _ _) as [found|] eqn:Hfind.
    + apply optional_find_some in Hfind as [Hf Hs]. apply String.eqb_eq in Hs.
      rewrite Hup, Hev. cbn [fst snd events]. split; [done|]. split.
      { intros other Ho. by rewrite lookup_insert_ne. }
      eexists. split; [apply lookup_insert_eq|].
      unfold arrayRemove. rewrite (filter_other_students _ found), Hs by done.
      cbn [registrations set_registrations updatedAt feedback title description date
             location creatorId creatorName institution targetAudience createdAt
             or_empty].
      split; [done|]. split; [|done].
      intros Hmem. apply list_elem_of_fmap in Hmem as (r & Heq & Hr).
      apply list_elem_of_filter in Hr as [Hne _]. by apply Hne.
    + exfalso. apply list_elem_of_fmap in Hin as (r & -> & Hr).
      destruct (registrations event) as [l|]; [|by apply elem_of_nil in Hr].
      cbn in Hfind, Hr. apply list_elem_of_In in Hr.
      eapply find_none in Hfind; [|exact Hr]. cbn in Hfind.
      by rewrite String.eqb_refl in Hfind.
Qed.

Lemma unregisterFromEvent_outcomes_witness :
  currentUser signed_in ≠ None ∧
  events signed_in !! "e1" = Some attended ∧
  NoDup (map studentId (or_empty (registrations attended))) ∧
  (unregisterFromEvent "e1" "alice" signed_in).1 = Returned tt ∧
  (unregisterFromEvent "e1" "bob" signed_in).1
    = Thrown (AppError NOT_FOUND "Registration not found" 404).
Proof.
  assert (H1 : currentUser signed_in ≠ None) by discriminate.
  assert (H2 : events signed_in !! "e1" = Some attended) by apply lookup_singleton_eq.
  assert (H3 : NoDup (map studentId (or_empty (registrations attended))))
    by (cbn; apply NoDup_singleton).
  split; [exact H1|]. split; [exact H2|]. split; [exact H3|]. split.
  - apply (unregisterFromEvent_outcomes signed_in "e1" attended "alice"
             H1 eq_refl eq_refl H2 H3).
    cbn. apply list_elem_of_here.
  - apply (unregisterFromEvent_outcomes signed_in "e1" attended "bob"
             H1 eq_refl eq_refl H2 H3).
    cbn. intros Hin. apply list_elem_of_singleton in Hin. discriminate Hin.
Defined.

(** ** Updating an event *)

(** X18: an update never touches who takes part.  For a signed-in user and
    an existing event, when [updateDoc] accepts the write the call returns
    and the stored event has the registrations and the feedback it had,
    the fields the update does not carry as they were, the fields it
    carries as given, and the server's time as [updatedAt], also when the
    update carries an [updatedAt] of its own; no other event changes. *)
Theorem updateEvent_outcome w eventId event updates :
  currentUser w ≠ None →
  updateDoc_fault w = None →
  events w !! eventId = Some event →
  let run := updateEvent eventId updates w in
  run.1 = Returned tt ∧
  (∀ other, other ≠ eventId → events run.2 !! other = events w !! other) ∧
  ∃ stored,
    events run.2 !! eventId = Some stored ∧
    registrations stored = registrations event ∧
    feedback stored = feedback event ∧
    updatedAt stored = server_time w ∧
    title stored = default (title event) (up_title updates) ∧
    description stored = default (description event) (up_description updates) ∧
    date stored = default (date event) (up_date updates) ∧
    location stored = default (location event) (up_location updates) ∧
    targetAudience stored = default (targetAudience event) (up_targetAudience updates) ∧
    creatorId stored = default (creatorId event) (up_creatorId updates) ∧
    institution stored = default (institution event) (up_institution updates) ∧
    creatorName stored = default (creatorName event) (up_creatorName updates) ∧
    createdAt stored = default (createdAt event) (up_createdAt updates).
Proof.
  intros Hu Hup Hev. cbv zeta.
  unfold updateEvent, try_catch, bind, checkAuth, updateDoc.
  destruct (currentUser w); [|done]. rewrite Hup, Hev. cbn [fst snd events].
  split; [done|]. split.
  - intros other Ho. by rewrite lookup_insert_ne.
  - eexists. split; [apply lookup_insert_eq|]. done.
Qed.

Lemma updateEvent_outcome_witness :
  currentUser signed_in ≠ None ∧
  updateDoc_fault signed_in = None ∧
  events signed_in !! "e1" = Some attended ∧
  (updateEvent "e1" new_description signed_in).1 = Returned tt.
Proof.
  assert (H1 : currentUser signed_in ≠ None) by discriminate.
  assert (H2 : events signed_in !! "e1" = Some attended) by apply lookup_singleton_eq.
  split; [exact H1|]. split; [reflexivity|]. split; [exact H2|].
  apply (updateEvent_outcome signed_in "e1" attended new_description H1 eq_refl H2).
Defined.

(** ** A first entry *)

Lemma optional_some_false {A} (arr : option (list A)) (pred : A → bool) :
  (∀ x, x ∈ or_empty arr → pred x = false) → optional_some arr pred = false.
Proof.
  intros Hall. destruct (optional_some arr pred) eqn:Hsome; [|done].
  apply optional_some_spec in Hsome as (x & Hx & Hp). by rewrite (Hall x Hx) in Hp.
Qed.

(** X20: a registration or a feedback with a server timestamp inside
    [arrayUnion] is never stored.  For a signed-in user and an event that
    [getDoc] returns: when the student has no registration yet, registering
    fails with [INTERNAL_ERROR] "Failed to register for event"; when the
    student has given no feedback yet, submitting feedback fails with
    [INTERNAL_ERROR] "Failed to submit feedback"; either way no event
    changes, whether or not [updateDoc] would accept a write. *)
Theorem first_entry_is_refused w eventId event registration fb :
  currentUser w ≠ None →
  getDoc_fault w = None →
  events w !! eventId = Some event →
  (reg_studentId registration ∉ map studentId (or_empty (registrations event)) →
   (registerForEvent eventId registration w).1
     = Thrown (AppError INTERNAL_ERROR "Failed to register for event" 500) ∧
   events (registerForEvent eventId registration w).2 = events w) ∧
  (in_studentId fb ∉ map fb_studentId (or_empty (feedback event)) →
   (submitFeedback eventId fb w).1
     = Thrown (AppError INTERNAL_ERROR "Failed to submit feedback" 500) ∧
   events (submitFeedback eventId fb w).2 = events w).
Proof.
  intros Hu Hg Hev. split; intros Hnot.
  - unfold registerForEvent, try_catch, bind, checkAuth, getDoc.
    destruct (currentUser w); [|done]. rewrite Hg, Hev.
    rewrite optional_some_false; [done|].
    intros r Hr. apply String.eqb_neq. intros Heq. apply Hnot, list_elem_of_fmap.
    by exists r.
  - unfold submitFeedback, try_catch, bind, checkAuth, getDoc.
    destruct (currentUser w); [|done]. rewrite Hg, Hev.
    rewrite optional_some_false; [done|].
    intros f Hf. apply String.eqb_neq. intros Heq. apply Hnot, list_elem_of_fmap.
    by exists f.
Qed.

Lemma first_entry_is_refused_witness :
  let bob := {| reg_studentId := "bob"; reg_studentName := "Bob Jones";
                reg_studentEmail := "bob@example.com" |} in
  currentUser signed_in ≠ None ∧
  events signed_in !! "e1" = Some attended ∧
  (reg_studentId bob ∉ map studentId (or_empty (registrations attended))) ∧
  (registerForEvent "e1" bob signed_in).1
    = Thrown (AppError INTERNAL_ERROR "Failed to register for event" 500) ∧
  events (registerForEvent "e1" bob signed_in).2 = events signed_in.
Proof.
  cbv zeta.
  assert (H1 : currentUser signed_in ≠ None) by discriminate.
  assert (H2 : events signed_in !! "e1" = Some attended) by apply lookup_singleton_eq.
  assert (H3 : "bob" ∉ map studentId (or_empty (registrations attended))).
  { cbn. intros Hin. apply list_elem_of_singleton in Hin. discriminate Hin. }
  split; [exact H1|]. split; [exact H2|]. split; [exact H3|].
  apply (first_entry_is_refused signed_in "e1" attended
           {| reg_studentId := "bob"; reg_studentName := "Bob Jones";
              reg_studentEmail := "bob@example.com" |} alice_feedback H1 eq_refl H2).
  exact H3.
Defined.

End ClientEventFacts.
